(** * Diagnyx API management service

    A shallow embedding of [main.py]: the request and response models, the
    handlers of every route, and the three things the handlers observe from
    outside the process (the entropy source behind [uuid.uuid4], the wall
    clock behind [time.time] and [time.strftime], and the PostgreSQL server
    behind [psycopg2.connect]).

    Handlers are written in a small state-and-exception monad over a
    [World] of pending observations; an endpoint wraps its handler with the
    body validation and the status code the decorator declares; the
    application [app] routes a method and a path to an endpoint through
    the path templates of the decorators. *)

From Stdlib Require Import ZArith List String Ascii Bool Lia.
From Stdlib Require Import DecimalString.
From Stdlib Require Import Uint63.
From Stdlib Require Import Floats.PrimFloat Floats.FloatOps Floats.SpecFloat.
Import ListNotations.

Open Scope string_scope.
Open Scope Z_scope.

Set Warnings "-register-all,-inexact-float".

(** ** Python values used by the handlers *)

Module Py.

(** [not s] on a [str]: only the empty string is falsy. *)
Definition not_str (s : string) : bool :=
  match s with
  | EmptyString => true
  | String _ _ => false
  end.

(** [str(i)] and the [{i}] of an f-string, for an [int]. *)
Definition str_int (i : Z) : string :=
  NilZero.string_of_int (Z.to_int i).

(** [range(lo, hi)]. *)
Definition range (lo hi : Z) : list Z :=
  map (fun k => lo + Z.of_nat k) (seq 0 (Z.to_nat (hi - lo))).

(** The [float] an [int] is converted to when it meets a [float] operand
    (exact below 2^53; the handlers only convert 0..4). *)
Definition float_of_int (i : Z) : float :=
  of_uint63 (Uint63.of_Z i).

(** [int(x)] on a [float]: truncation toward zero; [None] stands for the
    [ValueError] (nan) or [OverflowError] (infinity) Python raises. *)
Definition int_of_float (x : float) : option Z :=
  match Prim2SF x with
  | S754_zero _ => Some 0
  | S754_finite s m e =>
      let v := if 0 <=? e then Z.pos m * 2 ^ e else Z.pos m / 2 ^ (- e) in
      Some (if s then - v else v)
  | S754_infinity _ => None
  | S754_nan => None
  end.

Definition is_finite (x : float) : bool :=
  match int_of_float x with
  | Some _ => true
  | None => false
  end.

(** [len(l)]. *)
Definition len {A : Type} (l : list A) : Z := Z.of_nat (List.length l).

End Py.

(** ** [uuid.uuid4] and [str] of a UUID *)

Module UUID.

Definition hex_digit (d : Z) : ascii :=
  nth (Z.to_nat d) (list_ascii_of_string "0123456789abcdef") "0"%char.

(** ['%0nx' % x] for [0 <= x < 16^n]: exactly [n] lowercase digits. *)
Fixpoint hex_fixed (n : nat) (x : Z) : string :=
  match n with
  | O => ""
  | S n' => hex_fixed n' (x / 16) ++ String (hex_digit (x mod 16)) ""
  end.

(** [int.from_bytes(os.urandom(16), 'big')]: sixteen bytes of entropy. *)
Definition from_entropy (r : Z) : Z := r mod 2 ^ 128.

(** [UUID(bytes=..., version=4)]: the variant bits are set to RFC 4122
    and the version nibble to 4. *)
Definition uuid4 (r : Z) : Z :=
  let i := from_entropy r in
  let i := Z.land i (Z.lnot (Z.shiftl 0xc000 48)) in
  let i := Z.lor i (Z.shiftl 0x8000 48) in
  let i := Z.land i (Z.lnot (Z.shiftl 0xf000 64)) in
  Z.lor i (Z.shiftl 4 76).

(** [str(u)]: the 32 hex digits cut 8-4-4-4-12 and joined by dashes. *)
Definition str (u : Z) : string :=
  let hex := hex_fixed 32 u in
  substring 0 8 hex ++ "-" ++ substring 8 4 hex ++ "-" ++
  substring 12 4 hex ++ "-" ++ substring 16 4 hex ++ "-" ++
  substring 20 12 hex.

End UUID.

(** ** The world outside the process *)

(** One connection attempt against PostgreSQL.  Each field tells whether
    that call on the connection raises: [None] when it returns, [Some msg]
    when it raises an exception whose [str] is [msg]. *)
Record Session : Type := {
  on_connect : option string;
  on_cursor : option string;
  on_execute : string -> option string;
  on_cursor_close : option string;
  on_close : option string
}.

(** What the process will observe, in order of observation: the k-th draw
    of [os.urandom(16)], the k-th reading of the system clock (seconds
    since the epoch, as [time.time] returns it) and the k-th connection
    attempt. *)
Record World : Type := {
  urandom : nat -> Z;
  wall_clock : nat -> float;
  postgres : nat -> Session
}.

Definition draw_entropy (w : World) : World :=
  {| urandom := fun k => urandom w (S k);
     wall_clock := wall_clock w;
     postgres := postgres w |}.

Definition tick (w : World) : World :=
  {| urandom := urandom w;
     wall_clock := fun k => wall_clock w (S k);
     postgres := postgres w |}.

Definition next_session (w : World) : World :=
  {| urandom := urandom w;
     wall_clock := wall_clock w;
     postgres := fun k => postgres w (S k) |}.

(** ** Exceptions and the handler monad *)

(** [HTTPException] is the one exception the handlers raise themselves;
    [Exception] stands for any other subclass of Python's [Exception] and
    carries its [str]. *)
Inductive exn : Type :=
| HTTPException (status_code : Z) (detail : string)
| Exception (msg : string).

(** [str(e)]; Starlette renders an [HTTPException] as "status: detail". *)
Definition str_exn (e : exn) : string :=
  match e with
  | HTTPException c d => Py.str_int c ++ ": " ++ d
  | Exception msg => msg
  end.

Inductive result (A : Type) : Type :=
| Returned (a : A)
| Raised (e : exn).
Arguments Returned {A} a.
Arguments Raised {A} e.

Definition M (A : Type) : Type := World -> result A * World.

Definition ret {A : Type} (a : A) : M A := fun w => (Returned a, w).

Definition raise {A : Type} (e : exn) : M A := fun w => (Raised e, w).

Definition bind {A B : Type} (m : M A) (k : A -> M B) : M B :=
  fun w =>
    match m w with
    | (Returned a, w') => k a w'
    | (Raised e, w') => (Raised e, w')
    end.

(** [try: body / except Exception as e: handler(e)]. *)
Definition try_except {A : Type} (body : M A) (handler : exn -> M A) : M A :=
  fun w =>
    match body w with
    | (Returned a, w') => (Returned a, w')
    | (Raised e, w') => handler e w'
    end.

Declare Scope handler_scope.
Delimit Scope handler_scope with handler.
Notation "x <- m ;; k" := (bind m (fun x => k))
  (at level 61, m at next level, right associativity) : handler_scope.
Notation "m ;;; k" := (bind m (fun _ => k))
  (at level 61, right associativity) : handler_scope.
Open Scope handler_scope.

(** A list comprehension: the body runs once per element, in order. *)
Fixpoint comprehension {A B : Type} (f : A -> M B) (xs : list A) : M (list B) :=
  match xs with
  | [] => ret []
  | x :: xs' =>
      y <- f x ;;
      ys <- comprehension f xs' ;;
      ret (y :: ys)
  end.

(** *** Library calls *)

(** [str(uuid.uuid4())]. *)
Definition uuid4_str : M string :=
  fun w => (Returned (UUID.str (UUID.uuid4 (urandom w 0))), draw_entropy w).

(** [time.time()]. *)
Definition time_time : M float :=
  fun w => (Returned (wall_clock w 0), tick w).

(** [int(x)]. *)
Definition int (x : float) : M Z :=
  match Py.int_of_float x with
  | Some z => ret z
  | None => raise (Exception "cannot convert float to integer")
  end.

Definition may_raise (o : option string) : M unit :=
  match o with
  | None => ret tt
  | Some msg => raise (Exception msg)
  end.

(** [psycopg2.connect(host=..., port=..., dbname=..., user=..., password=...)]:
    the next connection attempt; the result is the open connection. *)
Definition psycopg2_connect (host : string) (port : Z) (dbname user password : string)
  : M Session :=
  fun w =>
    let s := postgres w 0 in
    match on_connect s with
    | None => (Returned s, next_session w)
    | Some msg => (Raised (Exception msg), next_session w)
    end.

Definition conn_cursor (conn : Session) : M Session :=
  may_raise (on_cursor conn) ;;; ret conn.

Definition cursor_execute (cursor : Session) (sql : string) : M unit :=
  may_raise (on_execute cursor sql).

Definition cursor_close (cursor : Session) : M unit :=
  may_raise (on_cursor_close cursor).

Definition conn_close (conn : Session) : M unit :=
  may_raise (on_close conn).

(** ** Models *)

Module ApiRegistrationRequest.
Record t : Type := {
  name : string;
  description : string;
  base_url : string;
  version : string;
  owner_id : string;
  documentation_url : option string;
  tags : list string
}.
End ApiRegistrationRequest.

Module ApiResponse.
Record t : Type := {
  api_id : string;
  name : string;
  description : string;
  base_url : string;
  version : string;
  owner_id : string;
  documentation_url : option string;
  tags : list string;
  created_at : string;
  updated_at : string
}.
End ApiResponse.

(** The dictionaries [get_api_health_checks] builds (the handler does not
    go through [HealthCheckResult]; the keys are the same). *)
Module HealthCheckDetails.
Record t : Type := {
  status_code : Z;
  response_size : Z;
  endpoint : string
}.
End HealthCheckDetails.

Module HealthCheck.
Record t : Type := {
  check_id : string;
  api_id : string;
  status : string;
  response_time : float;
  timestamp : Z;
  details : HealthCheckDetails.t
}.
End HealthCheck.

Module ContactSubmission.
Record t : Type := {
  email : string;
  name : string;
  subject : string;
  message : string;
  company : option string
}.
End ContactSubmission.

Module NewsletterSubscription.
Record t : Type := {
  email : string
}.
End NewsletterSubscription.

Module TrialWaitlistEntry.
Record t : Type := {
  email : string;
  full_name : string;
  company : option string;
  selected_plan : option string
}.
End TrialWaitlistEntry.

Module HealthResponse.
Record t : Type := {
  status : string;
  version : string;
  uptime : float;
  service : string;
  database : string
}.
End HealthResponse.

Module ServiceStatusResponse.
Record t : Type := {
  service : string;
  timestamp : string;
  database : string;
  status : string;
  message : string
}.
End ServiceStatusResponse.

(** The untyped dictionaries some routes return. *)
Module Banner.
Record t : Type := {
  service : string;
  status : string;
  version : string
}.
End Banner.

Module Listing.
Record t (A : Type) : Type := {
  data : list A;
  total : Z
}.
Arguments data {A} _.
Arguments total {A} _.
End Listing.

(** [{"message": ..., "<key>": ...}]: the second key is [submission_id],
    [subscription_id] or [waitlist_id], and [delete_api] has none. *)
Module Accepted.
Record t : Type := {
  message : string;
  generated : option (string * string)
}.
End Accepted.

(** ** Request bodies and their validation *)

Inductive json : Type :=
| JNull
| JBool (b : bool)
| JInt (z : Z)
| JFloat (x : float)
| JStr (s : string)
| JArr (items : list json)
| JObj (members : list (string * json)).

(** Lookup in a decoded object; the members are the dictionary's items. *)
Fixpoint member (k : string) (members : list (string * json)) : option json :=
  match members with
  | [] => None
  | (k', v) :: rest => if String.eqb k k' then Some v else member k rest
  end.

Record ErrorItem : Type := {
  loc : list string;
  type : string
}.

(** The outcome of validating a value: every error found, or the value. *)
Definition validated (A : Type) : Type := (list ErrorItem + A)%type.

Definition ap {A B : Type} (f : validated (A -> B)) (x : validated A) : validated B :=
  match f, x with
  | inr g, inr a => inr (g a)
  | inl e1, inl e2 => inl (e1 ++ e2)%list
  | inl e1, inr _ => inl e1
  | inr _, inl e2 => inl e2
  end.

Notation "f <*> x" := (ap f x) (at level 50, left associativity).

Definition invalid {A : Type} (field kind : string) : validated A :=
  inl [ {| loc := ["body"; field]; type := kind |} ].

(** A required [str] field. *)
Definition required_str (o : list (string * json)) (field : string) : validated string :=
  match member field o with
  | None => invalid field "missing"
  | Some (JStr s) => inr s
  | Some _ => invalid field "string_type"
  end.

(** An [Optional[str] = None] field. *)
Definition optional_str (o : list (string * json)) (field : string)
  : validated (option string) :=
  match member field o with
  | None => inr None
  | Some JNull => inr None
  | Some (JStr s) => inr (Some s)
  | Some _ => invalid field "string_type"
  end.

Fixpoint str_items (field : string) (i : Z) (items : list json) : validated (list string) :=
  match items with
  | [] => inr []
  | v :: rest =>
      let here : validated string :=
        match v with
        | JStr s => inr s
        | _ => inl [ {| loc := ["body"; field; Py.str_int i]; type := "string_type" |} ]
        end in
      inr cons <*> here <*> str_items field (i + 1) rest
  end.

(** A [List[str] = []] field. *)
Definition list_str (o : list (string * json)) (field : string) : validated (list string) :=
  match member field o with
  | None => inr []
  | Some (JArr items) => str_items field 0 items
  | Some _ => invalid field "list_type"
  end.

Definition not_an_object {A : Type} : validated A :=
  inl [ {| loc := ["body"]; type := "model_attributes_type" |} ].

Definition validate_ApiRegistrationRequest (body : json)
  : validated ApiRegistrationRequest.t :=
  match body with
  | JObj o =>
      inr ApiRegistrationRequest.Build_t
        <*> required_str o "name"
        <*> required_str o "description"
        <*> required_str o "base_url"
        <*> required_str o "version"
        <*> required_str o "owner_id"
        <*> optional_str o "documentation_url"
        <*> list_str o "tags"
  | _ => not_an_object
  end.

(** ** HTTP responses *)

Inductive detail : Type :=
| Message (s : string)
| Errors (errs : list ErrorItem).

(** A response is either the handler's value serialised under the route's
    status code, or an error status with a [detail]. *)
Inductive response (A : Type) : Type :=
| Json (status : Z) (content : A)
| Error (status : Z) (d : detail).
Arguments Json {A} status content.
Arguments Error {A} status d.

Definition status_of {A : Type} (r : response A) : Z :=
  match r with
  | Json s _ => s
  | Error s _ => s
  end.

Definition is_success {A : Type} (r : response A) : bool :=
  (200 <=? status_of r) && (status_of r <? 300).

(** What the framework sends for a handler's outcome: the returned value
    under the route's status code, an [HTTPException] as its own status
    and detail, and any other exception as a 500. *)
Definition respond {A : Type} (status_code : Z) (r : result A) : response A :=
  match r with
  | Returned a => Json status_code a
  | Raised (HTTPException c d) => Error c (Message d)
  | Raised (Exception _) => Error 500 (Message "Internal Server Error")
  end.

Definition route {A : Type} (status_code : Z) (handler : M A)
  : World -> response A * World :=
  fun w => let (r, w') := handler w in (respond status_code r, w').

(** A route with a body parameter: a body that fails validation is answered
    with 422 and the handler is not called. *)
Definition route_with_body {R A : Type} (validate : json -> validated R)
    (status_code : Z) (handler : R -> M A) (body : json)
  : World -> response A * World :=
  match validate body with
  | inl errs => fun w => (Error 422 (Errors errs), w)
  | inr request => route status_code (handler request)
  end.

(** ** The service *)

(** Database configuration. *)
Definition DB_HOST : string := "localhost".
Definition DB_PORT : Z := 5432.
Definition DB_NAME : string := "api-management-db".
Definition DB_USER : string := "dev".
Definition DB_PASSWORD : string := "dev".

Section Service.

(** What the process is given when it starts: the rendering of a clock
    reading by [time.strftime("%Y-%m-%d %H:%M:%S")] in the local time
    zone, the clock reading stored in the module-level [start_time], and
    the check behind pydantic's [EmailStr] ([None] when the address is
    rejected, the normalised address otherwise). *)
Variable strftime_local : float -> string.
Variable start_time : float.
Variable validate_email : string -> option string.

(** [time.strftime("%Y-%m-%d %H:%M:%S")]: formats the current time. *)
Definition time_strftime : M string :=
  now <- time_time ;;
  ret (strftime_local now).

(** An [EmailStr] field. *)
Definition required_email (o : list (string * json)) (field : string)
  : validated string :=
  match member field o with
  | None => invalid field "missing"
  | Some (JStr s) =>
      match validate_email s with
      | Some e => inr e
      | None => invalid field "value_error"
      end
  | Some _ => invalid field "string_type"
  end.

Definition validate_ContactSubmission (body : json) : validated ContactSubmission.t :=
  match body with
  | JObj o =>
      inr ContactSubmission.Build_t
        <*> required_email o "email"
        <*> required_str o "name"
        <*> required_str o "subject"
        <*> required_str o "message"
        <*> optional_str o "company"
  | _ => not_an_object
  end.

Definition validate_NewsletterSubscription (body : json)
  : validated NewsletterSubscription.t :=
  match body with
  | JObj o => inr NewsletterSubscription.Build_t <*> required_email o "email"
  | _ => not_an_object
  end.

Definition validate_TrialWaitlistEntry (body : json) : validated TrialWaitlistEntry.t :=
  match body with
  | JObj o =>
      inr TrialWaitlistEntry.Build_t
        <*> required_email o "email"
        <*> required_str o "full_name"
        <*> optional_str o "company"
        <*> optional_str o "selected_plan"
  | _ => not_an_object
  end.

(** *** Handlers *)

Definition root : M Banner.t :=
  ret {| Banner.service := "API Management Service";
         Banner.status := "running";
         Banner.version := "1.0.0" |}.

Definition health_check : M HealthResponse.t :=
  let db_status := "UP" in
  db_status <-
    try_except
      (conn <- psycopg2_connect DB_HOST DB_PORT DB_NAME DB_USER DB_PASSWORD ;;
       conn_close conn ;;;
       ret db_status)
      (fun _ => ret "DOWN") ;;
  now <- time_time ;;
  ret {| HealthResponse.status := "UP";
         HealthResponse.version := "1.0.0";
         HealthResponse.uptime := PrimFloat.sub now start_time;
         HealthResponse.service := "api-management-service";
         HealthResponse.database := db_status |}.

Definition service_status : M ServiceStatusResponse.t :=
  let db_status := "UP" in
  let status := "SUCCESS" in
  let message := "API Management Service is operational with database connectivity" in
  vars <-
    try_except
      (conn <- psycopg2_connect DB_HOST DB_PORT DB_NAME DB_USER DB_PASSWORD ;;
       cursor <- conn_cursor conn ;;
       cursor_execute cursor "SELECT 1" ;;;
       cursor_close cursor ;;;
       conn_close conn ;;;
       ret (db_status, status, message))
      (fun e =>
         ret ("DOWN", "FAILURE",
              "API Management Service is degraded - database connectivity issue: "
                ++ str_exn e)) ;;
  let '(db_status, status, message) := vars in
  timestamp <- time_strftime ;;
  ret {| ServiceStatusResponse.service := "api-management-service";
         ServiceStatusResponse.timestamp := timestamp;
         ServiceStatusResponse.database := db_status;
         ServiceStatusResponse.status := status;
         ServiceStatusResponse.message := message |}.

Definition register_api (request : ApiRegistrationRequest.t) : M ApiResponse.t :=
  api_id <- uuid4_str ;;
  current_time <- time_strftime ;;
  ret {| ApiResponse.api_id := api_id;
         ApiResponse.name := ApiRegistrationRequest.name request;
         ApiResponse.description := ApiRegistrationRequest.description request;
         ApiResponse.base_url := ApiRegistrationRequest.base_url request;
         ApiResponse.version := ApiRegistrationRequest.version request;
         ApiResponse.owner_id := ApiRegistrationRequest.owner_id request;
         ApiResponse.documentation_url :=
           ApiRegistrationRequest.documentation_url request;
         ApiResponse.tags := ApiRegistrationRequest.tags request;
         ApiResponse.created_at := current_time;
         ApiResponse.updated_at := current_time |}.

Definition get_api (api_id : string) : M ApiResponse.t :=
  if Py.not_str api_id then raise (HTTPException 404 "API not found")
  else
    created_at <- time_strftime ;;
    updated_at <- time_strftime ;;
    ret {| ApiResponse.api_id := api_id;
           ApiResponse.name := "Sample API";
           ApiResponse.description := "This is a sample API";
           ApiResponse.base_url := "https://api.example.com";
           ApiResponse.version := "1.0.0";
           ApiResponse.owner_id := "user-123";
           ApiResponse.documentation_url := Some "https://docs.example.com";
           ApiResponse.tags := ["sample"; "example"];
           ApiResponse.created_at := created_at;
           ApiResponse.updated_at := updated_at |}.

Definition list_apis : M (Listing.t ApiResponse.t) :=
  apis <-
    comprehension
      (fun i =>
         api_id <- uuid4_str ;;
         created_at <- time_strftime ;;
         updated_at <- time_strftime ;;
         ret {| ApiResponse.api_id := api_id;
                ApiResponse.name := "Sample API " ++ Py.str_int i;
                ApiResponse.description := "This is a sample API " ++ Py.str_int i;
                ApiResponse.base_url :=
                  "https://api" ++ Py.str_int i ++ ".example.com";
                ApiResponse.version := "1.0.0";
                ApiResponse.owner_id := "user-123";
                ApiResponse.documentation_url :=
                  Some ("https://docs" ++ Py.str_int i ++ ".example.com");
                ApiResponse.tags := ["sample"; "example"];
                ApiResponse.created_at := created_at;
                ApiResponse.updated_at := updated_at |})
      (Py.range 1 4) ;;
  ret {| Listing.data := apis; Listing.total := Py.len apis |}.

Definition update_api (api_id : string) (request : ApiRegistrationRequest.t)
  : M ApiResponse.t :=
  if Py.not_str api_id then raise (HTTPException 404 "API not found")
  else
    created_at <- time_strftime ;;
    updated_at <- time_strftime ;;
    ret {| ApiResponse.api_id := api_id;
           ApiResponse.name := ApiRegistrationRequest.name request;
           ApiResponse.description := ApiRegistrationRequest.description request;
           ApiResponse.base_url := ApiRegistrationRequest.base_url request;
           ApiResponse.version := ApiRegistrationRequest.version request;
           ApiResponse.owner_id := ApiRegistrationRequest.owner_id request;
           ApiResponse.documentation_url :=
             ApiRegistrationRequest.documentation_url request;
           ApiResponse.tags := ApiRegistrationRequest.tags request;
           ApiResponse.created_at := created_at;
           ApiResponse.updated_at := updated_at |}.

Definition delete_api (api_id : string) : M Accepted.t :=
  if Py.not_str api_id then raise (HTTPException 404 "API not found")
  else
    ret {| Accepted.message := "API " ++ api_id ++ " deleted successfully";
           Accepted.generated := None |}.

(** One element of the comprehension in [get_api_health_checks]. *)
Definition health_check_entry (api_id : string) (i : Z) : M HealthCheck.t :=
  check_id <- uuid4_str ;;
  now <- time_time ;;
  seconds <- int now ;;
  ret {| HealthCheck.check_id := check_id;
         HealthCheck.api_id := api_id;
         HealthCheck.status := if negb (i mod 3 =? 0) then "healthy" else "degraded";
         HealthCheck.response_time :=
           PrimFloat.add 0.5 (PrimFloat.mul (Py.float_of_int i) 0.1);
         HealthCheck.timestamp := seconds - i * 3600;
         HealthCheck.details :=
           {| HealthCheckDetails.status_code :=
                if negb (i mod 3 =? 0) then 200 else 500;
              HealthCheckDetails.response_size := 1024;
              HealthCheckDetails.endpoint := "/api/v1/resource" |} |}.

Definition get_api_health_checks (api_id : string) : M (Listing.t HealthCheck.t) :=
  health_checks <- comprehension (health_check_entry api_id) (Py.range 0 5) ;;
  ret {| Listing.data := health_checks; Listing.total := Py.len health_checks |}.

Definition submit_contact_form (submission : ContactSubmission.t) : M Accepted.t :=
  submission_id <- uuid4_str ;;
  ret {| Accepted.message := "Contact form submitted successfully";
         Accepted.generated := Some ("submission_id", submission_id) |}.

Definition subscribe_newsletter (subscription : NewsletterSubscription.t)
  : M Accepted.t :=
  subscription_id <- uuid4_str ;;
  ret {| Accepted.message := "Subscribed to newsletter successfully";
         Accepted.generated := Some ("subscription_id", subscription_id) |}.

Definition join_trial_waitlist (entry : TrialWaitlistEntry.t) : M Accepted.t :=
  waitlist_id <- uuid4_str ;;
  ret {| Accepted.message := "Added to trial waitlist successfully";
         Accepted.generated := Some ("waitlist_id", waitlist_id) |}.

(** *** Endpoints: handler, declared status code (200 unless given)

    What a route runs once the router has matched the request and, for a
    template with [{api_id}], extracted the identifier.  The router, [app]
    below, only ever passes an identifier that the template matched. *)

Definition GET_root := route 200 root.
Definition GET_health := route 200 health_check.
Definition GET_service_status := route 200 service_status.
Definition POST_apis := route_with_body validate_ApiRegistrationRequest 200 register_api.
Definition GET_api (api_id : string) := route 200 (get_api api_id).
Definition GET_apis := route 200 list_apis.
Definition PUT_api (api_id : string) :=
  route_with_body validate_ApiRegistrationRequest 200 (update_api api_id).
Definition DELETE_api (api_id : string) := route 200 (delete_api api_id).
Definition GET_health_checks (api_id : string) :=
  route 200 (get_api_health_checks api_id).
Definition POST_contact_submissions :=
  route_with_body validate_ContactSubmission 201 submit_contact_form.
Definition POST_newsletter_subscriptions :=
  route_with_body validate_NewsletterSubscription 201 subscribe_newsletter.
Definition POST_trial_waitlist :=
  route_with_body validate_TrialWaitlistEntry 201 join_trial_waitlist.

End Service.

(** ** The application: routing requests to endpoints *)

Inductive method : Type := GET | POST | PUT | DELETE.

Definition method_eqb (a b : method) : bool :=
  match a, b with
  | GET, GET | POST, POST | PUT, PUT | DELETE, DELETE => true
  | _, _ => false
  end.

(** What an endpoint sends: one of the response models, or one of the
    pages the framework generates ([/openapi.json], [/docs], ...). *)
Inductive content : Type :=
| Documentation (page : string)
| OfBanner (b : Banner.t)
| OfHealth (h : HealthResponse.t)
| OfStatus (s : ServiceStatusResponse.t)
| OfApi (d : ApiResponse.t)
| OfApis (l : Listing.t ApiResponse.t)
| OfChecks (l : Listing.t HealthCheck.t)
| OfAccepted (a : Accepted.t).

(** What the application answers: an endpoint's or the router's own
    response, or a redirect to another path of the same host. *)
Inductive reply : Type :=
| Answer (r : response content)
| Redirect (status : Z) (location : string).

Definition reply_status (r : reply) : Z :=
  match r with
  | Answer a => status_of a
  | Redirect s _ => s
  end.

Definition send {A : Type} (wrap : A -> content)
    (endpoint : World -> response A * World) : World -> reply * World :=
  fun w =>
    let (r, w') := endpoint w in
    (Answer match r with
            | Json s a => Json s (wrap a)
            | Error s d => Error s d
            end,
     w').

Definition documentation (page : string) : World -> reply * World :=
  fun w => (Answer (Json 200 (Documentation page)), w).

(** *** Path templates *)

Fixpoint no_slash (s : string) : bool :=
  match s with
  | EmptyString => true
  | String c s' => negb (Ascii.eqb c "/") && no_slash s'
  end.

(** What the convertor of [{api_id}] matches: the regular expression
    [[^/]+], one or more characters other than a slash. *)
Definition path_param (s : string) : bool :=
  negb (Py.not_str s) && no_slash s.

(** The longest slash-free prefix of a string, and what follows it. *)
Fixpoint segment (s : string) : string * string :=
  match s with
  | EmptyString => ("", "")
  | String c s' =>
      if Ascii.eqb c "/" then ("", s)
      else let (seg, rest) := segment s' in (String c seg, rest)
  end.

Fixpoint strip_prefix (p s : string) : option string :=
  match p, s with
  | EmptyString, _ => Some s
  | String a p', String b s' => if Ascii.eqb a b then strip_prefix p' s' else None
  | String _ _, EmptyString => None
  end.

(** A path against the template [prefix{api_id}suffix], anchored at both
    ends; the identifier when it matches.  The suffixes of this
    application are empty or start with a slash, so the parameter is the
    longest slash-free run after the prefix. *)
Definition item_of (prefix suffix path : string) : option string :=
  match strip_prefix prefix path with
  | Some rest =>
      let (seg, tail) := segment rest in
      if negb (Py.not_str seg) && String.eqb tail suffix then Some seg else None
  | None => None
  end.

Fixpoint ends_with_slash (s : string) : bool :=
  match s with
  | EmptyString => false
  | String c EmptyString => Ascii.eqb c "/"
  | String _ s' => ends_with_slash s'
  end.

(** [s.rstrip("/")]. *)
Fixpoint rstrip_slash (s : string) : string :=
  match s with
  | EmptyString => ""
  | String c s' =>
      match rstrip_slash s' with
      | EmptyString => if Ascii.eqb c "/" then "" else String c ""
      | t => String c t
      end
  end.

(** An entry of the routing table: a method, a path or a template with
    one parameter, and the endpoint. *)
Inductive entry : Type :=
| at_path (m : method) (path : string)
    (endpoint : json -> World -> reply * World)
| at_item (m : method) (prefix suffix : string)
    (endpoint : string -> json -> World -> reply * World).

Definition route_method (r : entry) : method :=
  match r with
  | at_path m _ _ => m
  | at_item m _ _ _ => m
  end.

(** The endpoint call a route makes for a path it matches. *)
Definition endpoint_for (r : entry) (path : string) (body : json)
  : option (World -> reply * World) :=
  match r with
  | at_path _ p endpoint => if String.eqb path p then Some (endpoint body) else None
  | at_item _ prefix suffix endpoint =>
      match item_of prefix suffix path with
      | Some api_id => Some (endpoint api_id body)
      | None => None
      end
  end.

Definition path_matches (r : entry) (path : string) : bool :=
  match endpoint_for r path JNull with
  | Some _ => true
  | None => false
  end.

(** The first route that matches both the path and the method. *)
Fixpoint first_full (rs : list entry) (m : method) (path : string) (body : json)
  : option (World -> reply * World) :=
  match rs with
  | [] => None
  | r :: rest =>
      match endpoint_for r path body with
      | Some run => if method_eqb (route_method r) m then Some run
                    else first_full rest m path body
      | None => first_full rest m path body
      end
  end.

(** The router.  A route matching path and method runs its endpoint; a
    path matched under other methods only is answered 405; otherwise, if
    the path with its trailing slashes removed (or, when it has none, with
    one added) matches a route, the answer is a 307 redirect to it; else
    404. *)
Definition router (rs : list entry) (m : method) (path : string) (body : json)
  : World -> reply * World :=
  match first_full rs m path body with
  | Some run => run
  | None =>
      if existsb (fun r => path_matches r path) rs
      then fun w => (Answer (Error 405 (Message "Method Not Allowed")), w)
      else
        let other :=
          if ends_with_slash path then rstrip_slash path else path ++ "/" in
        if negb (String.eqb path "/")
           && existsb (fun r => path_matches r other) rs
        then fun w => (Redirect 307 other, w)
        else fun w => (Answer (Error 404 (Message "Not Found")), w)
  end.

Section Application.

Variable strftime_local : float -> string.
Variable start_time : float.
Variable validate_email : string -> option string.

(** The routes in registration order: the four the framework adds when
    [FastAPI(...)] is built with its defaults, then one per decorator. *)
Definition routes : list entry :=
  [ at_path GET "/openapi.json" (fun _ => documentation "/openapi.json");
    at_path GET "/docs" (fun _ => documentation "/docs");
    at_path GET "/docs/oauth2-redirect"
      (fun _ => documentation "/docs/oauth2-redirect");
    at_path GET "/redoc" (fun _ => documentation "/redoc");
    at_path GET "/" (fun _ => send OfBanner GET_root);
    at_path GET "/health" (fun _ => send OfHealth (GET_health start_time));
    at_path GET "/service-status"
      (fun _ => send OfStatus (GET_service_status strftime_local));
    at_path POST "/api/v1/apis"
      (fun body => send OfApi (POST_apis strftime_local body));
    at_item GET "/api/v1/apis/" ""
      (fun api_id _ => send OfApi (GET_api strftime_local api_id));
    at_path GET "/api/v1/apis" (fun _ => send OfApis (GET_apis strftime_local));
    at_item PUT "/api/v1/apis/" ""
      (fun api_id body => send OfApi (PUT_api strftime_local api_id body));
    at_item DELETE "/api/v1/apis/" ""
      (fun api_id _ => send OfAccepted (DELETE_api api_id));
    at_item GET "/api/v1/apis/" "/health-checks"
      (fun api_id _ => send OfChecks (GET_health_checks api_id));
    at_path POST "/api/v1/contact-submissions"
      (fun body => send OfAccepted (POST_contact_submissions validate_email body));
    at_path POST "/api/v1/newsletter-subscriptions"
      (fun body =>
         send OfAccepted (POST_newsletter_subscriptions validate_email body));
    at_path POST "/api/v1/trial-waitlist"
      (fun body => send OfAccepted (POST_trial_waitlist validate_email body)) ].

(** The application on a request: method, decoded path and decoded JSON
    body (ignored by the routes that declare no body). *)
Definition app (m : method) (path : string) (body : json)
  : World -> reply * World :=
  router routes m path body.

End Application.

(** ** Vocabulary of the properties *)

(** The first call of a [try] block that raises, if any. *)
Fixpoint first_failure (steps : list (option string)) : option string :=
  match steps with
  | [] => None
  | Some msg :: _ => Some msg
  | None :: rest => first_failure rest
  end.

(** The calls [health_check] makes on a connection attempt. *)
Definition health_probe (s : Session) : option string :=
  first_failure [on_connect s; on_close s].

(** The calls [service_status] makes on a connection attempt. *)
Definition status_probe (s : Session) : option string :=
  first_failure
    [on_connect s; on_cursor s; on_execute s "SELECT 1"; on_cursor_close s; on_close s].

(** The clock never reads nan or an infinity. *)
Definition clock_finite (w : World) : Prop :=
  forall k : nat, Py.is_finite (wall_clock w k) = true.

(** The whole seconds of the k-th pending clock reading. *)
Definition seconds_at (w : World) (k : nat) : Z :=
  match Py.int_of_float (wall_clock w k) with
  | Some z => z
  | None => 0
  end.

(** The world after [n] health-check entries have been built. *)
Fixpoint after_entries (n : nat) (w : World) : World :=
  match n with
  | O => w
  | S n' => after_entries n' (tick (draw_entropy w))
  end.

(** The record built for index [i] from the [k]-th pending draw of entropy
    and the [k]-th pending clock reading. *)
Definition entry_at (api_id : string) (w : World) (k : nat) (i : Z) : HealthCheck.t :=
  {| HealthCheck.check_id := UUID.str (UUID.uuid4 (urandom w k));
     HealthCheck.api_id := api_id;
     HealthCheck.status := if negb (i mod 3 =? 0) then "healthy" else "degraded";
     HealthCheck.response_time :=
       PrimFloat.add 0.5 (PrimFloat.mul (Py.float_of_int i) 0.1);
     HealthCheck.timestamp := seconds_at w k - i * 3600;
     HealthCheck.details :=
       {| HealthCheckDetails.status_code := if negb (i mod 3 =? 0) then 200 else 500;
          HealthCheckDetails.response_size := 1024;
          HealthCheckDetails.endpoint := "/api/v1/resource" |} |}.

Fixpoint entries_from (api_id : string) (w : World) (k : nat) (xs : list Z)
  : list HealthCheck.t :=
  match xs with
  | [] => []
  | i :: xs' => entry_at api_id w k i :: entries_from api_id w (S k) xs'
  end.

Definition degraded (r : HealthCheck.t) : Prop :=
  HealthCheck.status r = "degraded" /\
  HealthCheckDetails.status_code (HealthCheck.details r) = 500.

Definition healthy (r : HealthCheck.t) : Prop :=
  HealthCheck.status r = "healthy" /\
  HealthCheckDetails.status_code (HealthCheck.details r) = 200.

(** Record [i] carries [base - i * 3600]. *)
Definition spaced_from (base : Z) (records : list HealthCheck.t) : Prop :=
  forall (i : nat) (r : HealthCheck.t),
    nth_error records i = Some r ->
    HealthCheck.timestamp r = base - Z.of_nat i * 3600.

(** Each record is exactly 3600 seconds older than the one before it. *)
Fixpoint hourly_steps (stamps : list Z) : bool :=
  match stamps with
  | a :: (b :: _) as rest => (a - b =? 3600) && hourly_steps rest
  | _ => true
  end.

(** How a decoded object carries the fields of a model. *)
Definition is_str (v : option json) : bool :=
  match v with
  | Some (JStr _) => true
  | _ => false
  end.

Definition is_optional_str (v : option json) : bool :=
  match v with
  | None | Some JNull | Some (JStr _) => true
  | _ => false
  end.

Definition carries_optional (o : list (string * json)) (field : string)
    (v : option string) : Prop :=
  match v with
  | Some s => member field o = Some (JStr s)
  | None => member field o = None \/ member field o = Some JNull
  end.

Definition carries_list (o : list (string * json)) (field : string)
    (l : list string) : Prop :=
  (member field o = None /\ l = []) \/ member field o = Some (JArr (map JStr l)).

Section EmailVocabulary.

Variable validate_email : string -> option string.

(** The [email] member is a string the [EmailStr] check accepts. *)
Definition email_ok (o : list (string * json)) : bool :=
  match member "email" o with
  | Some (JStr s) =>
      match validate_email s with
      | Some _ => true
      | None => false
      end
  | _ => false
  end.

Definition well_formed_contact (o : list (string * json)) : bool :=
  email_ok o && is_str (member "name" o) && is_str (member "subject" o)
  && is_str (member "message" o) && is_optional_str (member "company" o).

Definition well_formed_subscription (o : list (string * json)) : bool :=
  email_ok o.

Definition well_formed_waitlist (o : list (string * json)) : bool :=
  email_ok o && is_str (member "full_name" o)
  && is_optional_str (member "company" o)
  && is_optional_str (member "selected_plan" o).

End EmailVocabulary.

(** *** Further vocabulary: well-formed bodies and what a handler observes *)

Definition is_json_str (v : json) : bool :=
  match v with
  | JStr _ => true
  | _ => false
  end.

(** A [List[str] = []] member: absent, or an array of strings. *)
Definition is_str_list (v : option json) : bool :=
  match v with
  | None => true
  | Some (JArr items) => forallb is_json_str items
  | Some _ => false
  end.

(** A body is an object whose members satisfy [p]. *)
Definition object_with (p : list (string * json) -> bool) (body : json) : bool :=
  match body with
  | JObj o => p o
  | _ => false
  end.

Definition well_formed_registration (body : json) : bool :=
  object_with
    (fun o =>
       is_str (member "name" o) && is_str (member "description" o)
       && is_str (member "base_url" o) && is_str (member "version" o)
       && is_str (member "owner_id" o)
       && is_optional_str (member "documentation_url" o)
       && is_str_list (member "tags" o))
    body.

(** A computation leaves one of the world's streams as it found it,
    whether it returns or raises. *)
Definition keeps {X A : Type} (stream : World -> X) (m : M A) : Prop :=
  forall w : World, stream (snd (m w)) = stream w.

(** A computation never opens a database connection. *)
Definition keeps_database {A : Type} (m : M A) : Prop := keeps postgres m.

(** A computation never draws entropy. *)
Definition keeps_entropy {A : Type} (m : M A) : Prop := keeps urandom m.

(** The k-th descriptor of [list_apis] (k counted from 0): it is built from
    draw [k] and from clock readings [2k] and [2k + 1]. *)
Definition sample_api (strftime_local : float -> string) (w : World) (k : nat)
  : ApiResponse.t :=
  let i := Z.of_nat k + 1 in
  {| ApiResponse.api_id := UUID.str (UUID.uuid4 (urandom w k));
     ApiResponse.name := "Sample API " ++ Py.str_int i;
     ApiResponse.description := "This is a sample API " ++ Py.str_int i;
     ApiResponse.base_url := "https://api" ++ Py.str_int i ++ ".example.com";
     ApiResponse.version := "1.0.0";
     ApiResponse.owner_id := "user-123";
     ApiResponse.documentation_url :=
       Some ("https://docs" ++ Py.str_int i ++ ".example.com");
     ApiResponse.tags := ["sample"; "example"];
     ApiResponse.created_at := strftime_local (wall_clock w (2 * k));
     ApiResponse.updated_at := strftime_local (wall_clock w (2 * k + 1)) |}.

(** ** Concrete worlds and payloads *)

Module Fixtures.

Fixpoint zeros (n : nat) : string :=
  match n with
  | O => ""
  | S n' => String "0" (zeros n')
  end.

Definition padded (width : nat) (z : Z) : string :=
  let s := Py.str_int z in
  zeros (width - String.length s) ++ s.

(** The civil date of a day count since 1970-01-01 (proleptic Gregorian). *)
Definition civil_from_days (days : Z) : Z * Z * Z :=
  let z := days + 719468 in
  let era := z / 146097 in
  let doe := z mod 146097 in
  let yoe := (doe - doe / 1460 + doe / 36524 - doe / 146096) / 365 in
  let doy := doe - (365 * yoe + yoe / 4 - yoe / 100) in
  let mp := (5 * doy + 2) / 153 in
  let d := doy - (153 * mp + 2) / 5 + 1 in
  let m := if mp <? 10 then mp + 3 else mp - 9 in
  let y := yoe + era * 400 + (if m <=? 2 then 1 else 0) in
  (y, m, d).

(** ["%Y-%m-%d %H:%M:%S"] for a process whose time zone is UTC. *)
Definition strftime_utc (now : float) : string :=
  let t := match Py.int_of_float now with Some z => z | None => 0 end in
  let '(y, m, d) := civil_from_days (t / 86400) in
  let s := t mod 86400 in
  padded 4 y ++ "-" ++ padded 2 m ++ "-" ++ padded 2 d ++ " " ++
  padded 2 (s / 3600) ++ ":" ++ padded 2 (s mod 3600 / 60) ++ ":" ++
  padded 2 (s mod 60).

(** A check that accepts [local@domain] with a dot in the domain. *)
Definition simple_email (s : string) : option string :=
  match index 0 "@" s with
  | None => None
  | Some n =>
      let domain := substring (S n) (String.length s - S n) s in
      match n, index 0 "." domain, index 0 "@" domain with
      | S _, Some _, None => Some s
      | _, _, _ => None
      end
  end.

Definition reachable : Session :=
  {| on_connect := None;
     on_cursor := None;
     on_execute := fun _ => None;
     on_cursor_close := None;
     on_close := None |}.

Definition unreachable : Session :=
  {| on_connect := Some "connection refused";
     on_cursor := None;
     on_execute := fun _ => None;
     on_cursor_close := None;
     on_close := None |}.

(** The clock stands at 22:13:20.25 UTC on 2023-11-14 for the whole
    request; the database is up. *)
Definition steady : World :=
  {| urandom := fun k => 0x0123456789abcdef0123456789abcdef + Z.of_nat k;
     wall_clock := fun _ => 1700000000.25%float;
     postgres := fun _ => reachable |}.

(** The second changes between the first and the second clock reading;
    the database is down. *)
Definition ticking : World :=
  {| urandom := fun k => 0x0123456789abcdef0123456789abcdef + Z.of_nat k;
     wall_clock := fun k =>
       match k with
       | O => 1700000000.75%float
       | S _ => 1700000001.25%float
       end;
     postgres := fun _ => unreachable |}.

Definition registration : json :=
  JObj [("name", JStr "Billing");
        ("description", JStr "Invoices and payments");
        ("base_url", JStr "https://billing.example.com");
        ("version", JStr "2.1.0");
        ("owner_id", JStr "user-7");
        ("documentation_url", JNull);
        ("tags", JArr [JStr "finance"; JStr "internal"])].

Definition registration_request : ApiRegistrationRequest.t :=
  {| ApiRegistrationRequest.name := "Billing";
     ApiRegistrationRequest.description := "Invoices and payments";
     ApiRegistrationRequest.base_url := "https://billing.example.com";
     ApiRegistrationRequest.version := "2.1.0";
     ApiRegistrationRequest.owner_id := "user-7";
     ApiRegistrationRequest.documentation_url := None;
     ApiRegistrationRequest.tags := ["finance"; "internal"] |}.

Definition bad_contact : list (string * json) :=
  [("email", JStr "not-an-email"); ("name", JStr "Ada");
   ("subject", JStr "Pricing"); ("message", JStr "Hello")].

Definition contact : list (string * json) :=
  [("email", JStr "ada@example.com"); ("name", JStr "Ada");
   ("subject", JStr "Pricing"); ("message", JStr "Hello")].

Definition subscription : list (string * json) :=
  [("email", JStr "ada@example.com")].

Definition waitlist : list (string * json) :=
  [("email", JStr "ada@example.com"); ("full_name", JStr "Ada Lovelace");
   ("selected_plan", JStr "team")].

(** A registration whose [version] is a number and whose [owner_id] is
    missing. *)
Definition bad_registration : json :=
  JObj [("name", JStr "Billing");
        ("description", JStr "Invoices and payments");
        ("base_url", JStr "https://billing.example.com");
        ("version", JInt 2)].

(** A contact form without its [message]. *)
Definition incomplete_contact : list (string * json) :=
  [("email", JStr "ada@example.com"); ("name", JStr "Ada");
   ("subject", JStr "Pricing")].

Definition other_contact : list (string * json) :=
  [("email", JStr "grace@example.org"); ("name", JStr "Grace");
   ("subject", JStr "Support"); ("message", JStr "Good morning");
   ("company", JStr "Navy")].

(** The clock reading stored in [start_time] when the process started. *)
Definition started : float := 1699990000%float.

(** The server accepts connections but refuses to open a cursor. *)
Definition no_cursor : Session :=
  {| on_connect := None;
     on_cursor := Some "cursor refused";
     on_execute := fun _ => None;
     on_cursor_close := None;
     on_close := None |}.

Definition half_up : World :=
  {| urandom := fun k => Z.of_nat k;
     wall_clock := fun _ => 1700000000.25%float;
     postgres := fun _ => no_cursor |}.

End Fixtures.

(** ** Generated identifiers *)

Lemma length_append (s t : string) :
  String.length (s ++ t) = (String.length s + String.length t)%nat.
Proof.
  induction s as [|c s IH]; simpl; [reflexivity | now rewrite IH].
Qed.

Lemma length_substring (s : string) :
  forall n m : nat,
    (n + m <= String.length s)%nat -> String.length (substring n m s) = m.
Proof.
  induction s as [|c s IH]; intros n m Hle; simpl in Hle.
  - assert (n = O /\ m = O) as [-> ->] by lia. reflexivity.
  - destruct n as [|n]; simpl.
    + destruct m as [|m]; simpl; [reflexivity|].
      f_equal. apply IH. lia.
    + apply IH. lia.
Qed.

Lemma length_hex_fixed (n : nat) :
  forall x : Z, String.length (UUID.hex_fixed n x) = n.
Proof.
  induction n as [|n IH]; intros x; simpl; [reflexivity|].
  rewrite length_append, IH. simpl. lia.
Qed.

(** [str(uuid.uuid4())] is always 36 characters long. *)
Lemma uuid_str_length (u : Z) : String.length (UUID.str u) = 36%nat.
Proof.
  cbv beta zeta delta [UUID.str].
  pose proof (length_hex_fixed 32 u) as Hhex.
  set (hex := UUID.hex_fixed 32 u) in *.
  rewrite !length_append.
  rewrite !length_substring by (rewrite Hhex; lia).
  reflexivity.
Qed.

Lemma uuid_str_nonempty (u : Z) : UUID.str u <> "".
Proof.
  intros Heq. pose proof (uuid_str_length u) as Hlen.
  rewrite Heq in Hlen. discriminate Hlen.
Qed.

(** ** Validation lemmas *)

Lemma required_str_inr o field s :
  required_str o field = inr s -> member field o = Some (JStr s).
Proof.
  unfold required_str, invalid.
  destruct (member field o) as [[]|]; intros H; inversion H; reflexivity.
Qed.

Lemma optional_str_inr o field v :
  optional_str o field = inr v -> carries_optional o field v.
Proof.
  unfold optional_str, invalid, carries_optional.
  destruct (member field o) as [[]|]; intros H; inversion H; auto.
Qed.

Lemma str_items_inr field :
  forall items i l, str_items field i items = inr l -> items = map JStr l.
Proof.
  induction items as [|v items IH]; intros i l H; simpl in H.
  - inversion H. reflexivity.
  - destruct (str_items field (i + 1) items) as [errs|l'] eqn:Hrest;
      destruct v; simpl in H; inversion H; subst.
    simpl. f_equal. eapply IH. eassumption.
Qed.

Lemma list_str_inr o field l :
  list_str o field = inr l -> carries_list o field l.
Proof.
  unfold list_str, invalid, carries_list.
  destruct (member field o) as [[]|] eqn:Hm; intros H; try discriminate H.
  - right. f_equal. f_equal. eapply str_items_inr. eassumption.
  - inversion H. left. split; reflexivity.
Qed.

(** A body that validates is an object that carries every field of the
    request it is read as. *)
Lemma validate_ApiRegistrationRequest_inr body request :
  validate_ApiRegistrationRequest body = inr request ->
  exists o,
    body = JObj o /\
    member "name" o = Some (JStr (ApiRegistrationRequest.name request)) /\
    member "description" o = Some (JStr (ApiRegistrationRequest.description request)) /\
    member "base_url" o = Some (JStr (ApiRegistrationRequest.base_url request)) /\
    member "version" o = Some (JStr (ApiRegistrationRequest.version request)) /\
    member "owner_id" o = Some (JStr (ApiRegistrationRequest.owner_id request)) /\
    carries_optional o "documentation_url"
      (ApiRegistrationRequest.documentation_url request) /\
    carries_list o "tags" (ApiRegistrationRequest.tags request).
Proof.
  destruct body as [| | | | |items|o]; try discriminate.
  unfold validate_ApiRegistrationRequest. intros H. exists o.
  destruct (required_str o "name") as [?|n] eqn:Hn;
    destruct (required_str o "description") as [?|d] eqn:Hd;
    destruct (required_str o "base_url") as [?|b] eqn:Hb;
    destruct (required_str o "version") as [?|v] eqn:Hv;
    destruct (required_str o "owner_id") as [?|ow] eqn:Ho;
    destruct (optional_str o "documentation_url") as [?|doc] eqn:Hdoc;
    destruct (list_str o "tags") as [?|tg] eqn:Htg;
    simpl in H; try discriminate H.
  inversion H; subst; simpl.
  repeat split;
    auto using required_str_inr, optional_str_inr, list_str_inr.
Qed.

(** ** The API registry routes *)

Section RegistryProperties.

Variable strftime_local : float -> string.

(** C1. For every registration payload that validates, POST /api/v1/apis
    answers 200 with a descriptor whose name, description, base_url,
    version, owner_id, documentation_url and tags are the ones the payload
    carries; its api_id is the string of a UUID drawn from the next
    entropy, hence non-empty (36 characters); created_at and updated_at
    are the same string. *)
Theorem register_api_echoes_payload (body : json)
    (request : ApiRegistrationRequest.t) (w : World) :
  validate_ApiRegistrationRequest body = inr request ->
  exists (o : list (string * json)) (d : ApiResponse.t),
    body = JObj o /\
    POST_apis strftime_local body w = (Json 200 d, tick (draw_entropy w)) /\
    member "name" o = Some (JStr (ApiResponse.name d)) /\
    member "description" o = Some (JStr (ApiResponse.description d)) /\
    member "base_url" o = Some (JStr (ApiResponse.base_url d)) /\
    member "version" o = Some (JStr (ApiResponse.version d)) /\
    member "owner_id" o = Some (JStr (ApiResponse.owner_id d)) /\
    carries_optional o "documentation_url" (ApiResponse.documentation_url d) /\
    carries_list o "tags" (ApiResponse.tags d) /\
    ApiResponse.name d = ApiRegistrationRequest.name request /\
    ApiResponse.description d = ApiRegistrationRequest.description request /\
    ApiResponse.base_url d = ApiRegistrationRequest.base_url request /\
    ApiResponse.version d = ApiRegistrationRequest.version request /\
    ApiResponse.owner_id d = ApiRegistrationRequest.owner_id request /\
    ApiResponse.documentation_url d =
      ApiRegistrationRequest.documentation_url request /\
    ApiResponse.tags d = ApiRegistrationRequest.tags request /\
    ApiResponse.api_id d = UUID.str (UUID.uuid4 (urandom w 0)) /\
    ApiResponse.api_id d <> "" /\
    String.length (ApiResponse.api_id d) = 36%nat /\
    ApiResponse.created_at d = ApiResponse.updated_at d.
Proof.
  intros Hvalid.
  destruct (validate_ApiRegistrationRequest_inr _ _ Hvalid)
    as (o & -> & Hn & Hd & Hb & Hv & Ho & Hdoc & Htags).
  exists o. eexists. split; [reflexivity|].
  split.
  { unfold POST_apis, route_with_body. rewrite Hvalid. reflexivity. }
  repeat (split; [first [eassumption | reflexivity]|]).
  split; [apply uuid_str_nonempty|].
  split; [apply uuid_str_length | reflexivity].
Qed.

(** C3. For every non-empty path identifier, GET and PUT
    /api/v1/apis/{id} (the latter with a payload that validates) answer
    200 with a descriptor whose api_id is that identifier. *)
Theorem get_and_update_echo_identifier (api_id : string) (body : json)
    (request : ApiRegistrationRequest.t) (w : World) :
  api_id <> "" ->
  validate_ApiRegistrationRequest body = inr request ->
  (exists d : ApiResponse.t,
      GET_api strftime_local api_id w = (Json 200 d, tick (tick w)) /\
      ApiResponse.api_id d = api_id) /\
  (exists d : ApiResponse.t,
      PUT_api strftime_local api_id body w = (Json 200 d, tick (tick w)) /\
      ApiResponse.api_id d = api_id).
Proof.
  intros Hid Hvalid.
  destruct api_id as [|c rest]; [contradiction Hid; reflexivity|].
  split; eexists.
  - split; reflexivity.
  - unfold PUT_api, route_with_body. rewrite Hvalid.
    split; reflexivity.
Qed.

(** C8. GET /api/v1/apis always answers 200 with exactly three
    descriptors in [data] and [total] = 3, the length of that list. *)
Theorem list_apis_returns_three (w : World) :
  exists (d1 d2 d3 : ApiResponse.t) (w' : World),
    GET_apis strftime_local w =
      (Json 200 {| Listing.data := [d1; d2; d3]; Listing.total := 3 |}, w') /\
    Py.len [d1; d2; d3] = 3 /\
    ApiResponse.name d1 = "Sample API 1" /\
    ApiResponse.name d2 = "Sample API 2" /\
    ApiResponse.name d3 = "Sample API 3".
Proof.
  do 4 eexists. split; [reflexivity|].
  repeat split.
Qed.

End RegistryProperties.

Lemma register_api_echoes_payload_witness :
  exists (o : list (string * json)) (d : ApiResponse.t),
    Fixtures.registration = JObj o /\
    POST_apis Fixtures.strftime_utc Fixtures.registration Fixtures.steady =
      (Json 200 d, tick (draw_entropy Fixtures.steady)) /\
    ApiResponse.name d = "Billing" /\
    ApiResponse.tags d = ["finance"; "internal"] /\
    ApiResponse.api_id d = "01234567-89ab-4def-8123-456789abcdef" /\
    ApiResponse.created_at d = ApiResponse.updated_at d.
Proof.
  destruct (register_api_echoes_payload Fixtures.strftime_utc
              Fixtures.registration Fixtures.registration_request
              Fixtures.steady eq_refl)
    as (o & d & Hbody & Hrun & _ & _ & _ & _ & _ & _ & _
        & Hname & _ & _ & _ & _ & _ & Htags & Hid & _ & _ & Htime).
  exists o, d.
  split; [exact Hbody|]. split; [exact Hrun|].
  split; [exact Hname|]. split; [exact Htags|].
  split; [|exact Htime].
  rewrite Hid. vm_compute. reflexivity.
Defined.

Lemma get_and_update_echo_identifier_witness :
  (exists d : ApiResponse.t,
      GET_api Fixtures.strftime_utc "billing-1" Fixtures.steady =
        (Json 200 d, tick (tick Fixtures.steady)) /\
      ApiResponse.api_id d = "billing-1") /\
  (exists d : ApiResponse.t,
      PUT_api Fixtures.strftime_utc "billing-1" Fixtures.registration Fixtures.steady =
        (Json 200 d, tick (tick Fixtures.steady)) /\
      ApiResponse.api_id d = "billing-1").
Proof.
  apply (get_and_update_echo_identifier Fixtures.strftime_utc "billing-1"
           Fixtures.registration Fixtures.registration_request Fixtures.steady).
  - discriminate.
  - reflexivity.
Defined.

(** ** Health-check records *)

Lemma clock_finite_step (w : World) :
  clock_finite w -> clock_finite (tick (draw_entropy w)).
Proof.
  intros Hfin k. exact (Hfin (S k)).
Qed.

Lemma int_of_finite (w : World) (k : nat) :
  clock_finite w -> Py.int_of_float (wall_clock w k) = Some (seconds_at w k).
Proof.
  intros Hfin. specialize (Hfin k). unfold Py.is_finite in Hfin.
  unfold seconds_at.
  destruct (Py.int_of_float (wall_clock w k)); [reflexivity | discriminate Hfin].
Qed.

(** One turn of the comprehension draws one identifier and reads the clock
    once. *)
Lemma health_check_entry_run (api_id : string) (i : Z) (w : World) :
  clock_finite w ->
  health_check_entry api_id i w =
    (Returned (entry_at api_id w 0 i), tick (draw_entropy w)).
Proof.
  intros Hfin.
  unfold health_check_entry, bind, uuid4_str, time_time, int.
  cbn [wall_clock draw_entropy].
  rewrite (int_of_finite w 0 Hfin).
  reflexivity.
Qed.

Lemma entries_from_step (api_id : string) (w : World) (xs : list Z) :
  forall k : nat,
    entries_from api_id (tick (draw_entropy w)) k xs =
    entries_from api_id w (S k) xs.
Proof.
  induction xs as [|i xs IH]; intros k; simpl; [reflexivity|].
  now rewrite IH.
Qed.

(** The comprehension over any index list: it never raises under a finite
    clock, and turn [k] uses draw [k] and reading [k]. *)
Lemma comprehension_health_entries (api_id : string) (xs : list Z) :
  forall w : World,
    clock_finite w ->
    comprehension (health_check_entry api_id) xs w =
      (Returned (entries_from api_id w 0 xs), after_entries (List.length xs) w).
Proof.
  induction xs as [|i xs IH]; intros w Hfin; [reflexivity|].
  cbn [comprehension]. unfold bind at 1.
  rewrite (health_check_entry_run api_id i w Hfin).
  unfold bind at 1.
  rewrite (IH _ (clock_finite_step w Hfin)).
  rewrite entries_from_step. reflexivity.
Qed.

Lemma get_api_health_checks_run (api_id : string) (w : World) :
  clock_finite w ->
  GET_health_checks api_id w =
    (Json 200 {| Listing.data := entries_from api_id w 0 [0; 1; 2; 3; 4];
                 Listing.total := 5 |},
     after_entries 5 w).
Proof.
  intros Hfin.
  unfold GET_health_checks, route, get_api_health_checks, bind.
  change (Py.range 0 5) with [0; 1; 2; 3; 4].
  rewrite (comprehension_health_entries api_id _ w Hfin).
  reflexivity.
Qed.

Lemma steady_clock_finite : clock_finite Fixtures.steady.
Proof.
  intros k. reflexivity.
Qed.

Lemma ticking_clock_finite : clock_finite Fixtures.ticking.
Proof.
  intros [|k]; reflexivity.
Qed.

(** C2. Under a clock that reads finite values, GET
    /api/v1/apis/{id}/health-checks answers 200 with exactly five records
    and [total] = 5; the records at indices 0 and 3 are "degraded" with
    status_code 500 and those at indices 1, 2 and 4 are "healthy" with
    status_code 200. *)
Theorem health_checks_five_with_cyclic_status (api_id : string) (w : World) :
  clock_finite w ->
  exists (r0 r1 r2 r3 r4 : HealthCheck.t) (w' : World),
    GET_health_checks api_id w =
      (Json 200 {| Listing.data := [r0; r1; r2; r3; r4]; Listing.total := 5 |},
       w') /\
    degraded r0 /\ healthy r1 /\ healthy r2 /\ degraded r3 /\ healthy r4.
Proof.
  intros Hfin.
  do 6 eexists. split.
  - rewrite (get_api_health_checks_run api_id w Hfin). reflexivity.
  - repeat split.
Qed.

Lemma health_checks_five_with_cyclic_status_witness :
  exists (r0 r1 r2 r3 r4 : HealthCheck.t) (w' : World),
    GET_health_checks "billing-1" Fixtures.steady =
      (Json 200 {| Listing.data := [r0; r1; r2; r3; r4]; Listing.total := 5 |},
       w') /\
    degraded r0 /\ healthy r1 /\ healthy r2 /\ degraded r3 /\ healthy r4.
Proof.
  exact (health_checks_five_with_cyclic_status "billing-1" Fixtures.steady
           steady_clock_finite).
Defined.

(** *** Timestamps *)

Lemma nth_error_entries_from (api_id : string) (w : World) (xs : list Z) :
  forall (k i : nat) (r : HealthCheck.t),
    nth_error (entries_from api_id w k xs) i = Some r ->
    exists x : Z, nth_error xs i = Some x /\ r = entry_at api_id w (k + i) x.
Proof.
  induction xs as [|x xs IH]; intros k i r Hr.
  - destruct i; discriminate Hr.
  - destruct i as [|i]; simpl in Hr.
    + inversion Hr. exists x. split; [reflexivity|].
      now rewrite Nat.add_0_r.
    + destruct (IH (S k) i r Hr) as (y & Hy & ->).
      exists y. split; [exact Hy|].
      now rewrite Nat.add_succ_r.
Qed.

Lemma nth_error_indices (i : nat) (x : Z) :
  nth_error [0; 1; 2; 3; 4] i = Some x -> x = Z.of_nat i /\ (i < 5)%nat.
Proof.
  do 5 (destruct i as [|i]; [intros H; inversion H; split; [reflexivity | lia]|]).
  destruct i; discriminate.
Qed.

(** The claim as written fails when the second changes while the records
    are being built: the first record is stamped 1700000000 and the second
    1699996401, 3599 seconds apart, so no base time fits both. *)
Lemma health_check_timestamps_not_hourly :
  exists (records : list HealthCheck.t) (w' : World),
    GET_health_checks "billing-1" Fixtures.ticking =
      (Json 200 {| Listing.data := records; Listing.total := 5 |}, w') /\
    map HealthCheck.timestamp records =
      [1700000000; 1699996401; 1699992801; 1699989201; 1699985601] /\
    hourly_steps (map HealthCheck.timestamp records) = false /\
    ~ (exists base : Z, spaced_from base records).
Proof.
  do 2 eexists.
  split; [apply (get_api_health_checks_run _ _ ticking_clock_finite)|].
  split; [reflexivity|].
  split; [reflexivity|].
  intros (base & Hspaced).
  assert (H0 : 1700000000 = base - 0 * 3600)
    by exact (Hspaced 0%nat _ eq_refl).
  assert (H1 : 1699996401 = base - 1 * 3600)
    by exact (Hspaced 1%nat _ eq_refl).
  lia.
Qed.

(** C10, amended. Under a clock that reads finite values, in every
    response the record at index i is stamped with the whole seconds of the
    clock reading taken while that record is built, minus i * 3600.  When
    the five readings fall in the same second [base], record i carries
    base - i * 3600 and every record is exactly 3600 seconds older than
    the one before it. *)
Theorem health_check_timestamps (api_id : string) (w : World) :
  clock_finite w ->
  exists (records : list HealthCheck.t) (w' : World),
    GET_health_checks api_id w =
      (Json 200 {| Listing.data := records; Listing.total := 5 |}, w') /\
    (forall (i : nat) (r : HealthCheck.t),
        nth_error records i = Some r ->
        HealthCheck.timestamp r = seconds_at w i - Z.of_nat i * 3600) /\
    (forall base : Z,
        (forall k : nat, (k < 5)%nat -> seconds_at w k = base) ->
        spaced_from base records /\
        hourly_steps (map HealthCheck.timestamp records) = true).
Proof.
  intros Hfin.
  do 2 eexists. split; [apply (get_api_health_checks_run api_id w Hfin)|].
  assert (Hstamp : forall (i : nat) (r : HealthCheck.t),
             nth_error (entries_from api_id w 0 [0; 1; 2; 3; 4]) i = Some r ->
             HealthCheck.timestamp r = seconds_at w i - Z.of_nat i * 3600
             /\ (i < 5)%nat).
  { intros i r Hr.
    destruct (nth_error_entries_from _ _ _ _ _ _ Hr) as (x & Hx & ->).
    destruct (nth_error_indices _ _ Hx) as [-> Hlt].
    split; [reflexivity | exact Hlt]. }
  split; [intros i r Hr; apply (Hstamp i r Hr)|].
  intros base Hbase. split.
  - intros i r Hr. destruct (Hstamp i r Hr) as [-> Hlt].
    now rewrite (Hbase i Hlt).
  - cbn [entries_from map entry_at HealthCheck.timestamp hourly_steps].
    rewrite !Hbase by lia.
    repeat (apply andb_true_intro; split); try reflexivity; apply Z.eqb_eq; lia.
Qed.

Lemma health_check_timestamps_witness :
  (exists (records : list HealthCheck.t) (w' : World),
      GET_health_checks "billing-1" Fixtures.ticking =
        (Json 200 {| Listing.data := records; Listing.total := 5 |}, w') /\
      forall (i : nat) (r : HealthCheck.t),
        nth_error records i = Some r ->
        HealthCheck.timestamp r =
          seconds_at Fixtures.ticking i - Z.of_nat i * 3600) /\
  (exists (records : list HealthCheck.t) (w' : World),
      GET_health_checks "billing-1" Fixtures.steady =
        (Json 200 {| Listing.data := records; Listing.total := 5 |}, w') /\
      spaced_from 1700000000 records /\
      hourly_steps (map HealthCheck.timestamp records) = true).
Proof.
  split.
  - destruct (health_check_timestamps "billing-1" Fixtures.ticking
                ticking_clock_finite)
      as (records & w' & Hrun & Hstamp & _).
    exists records, w'. split; assumption.
  - destruct (health_check_timestamps "billing-1" Fixtures.steady
                steady_clock_finite)
      as (records & w' & Hrun & _ & Hbase).
    destruct (Hbase 1700000000 (fun k _ => eq_refl)) as [Hspaced Hsteps].
    exists records, w'. repeat split; assumption.
Defined.

(** ** The status routes *)

(** C6. GET /health answers 200 whatever the connection attempt does: the
    response is the same record in every case, with status "UP", except
    that [database] is "UP" when connecting and closing both return and
    "DOWN" when either raises. *)
Theorem health_check_never_fails (start_time : float) (w : World) :
  GET_health start_time w =
    (Json 200
       {| HealthResponse.status := "UP";
          HealthResponse.version := "1.0.0";
          HealthResponse.uptime := PrimFloat.sub (wall_clock w 0) start_time;
          HealthResponse.service := "api-management-service";
          HealthResponse.database :=
            match health_probe (postgres w 0) with
            | None => "UP"
            | Some _ => "DOWN"
            end |},
     tick (next_session w)) /\
  is_success (fst (GET_health start_time w)) = true.
Proof.
  unfold GET_health, route, health_check, try_except, bind, psycopg2_connect,
    conn_close, may_raise, health_probe, first_failure, time_time, ret, raise.
  destruct (on_connect (postgres w 0)) as [msg|];
    [split; reflexivity|].
  destruct (on_close (postgres w 0)) as [msg|]; split; reflexivity.
Qed.

(** C7. GET /service-status answers 200 in both outcomes of the probe:
    when connecting, opening the cursor, SELECT 1 or closing raises, the
    response has status "FAILURE", database "DOWN" and a message that ends
    with the text of the exception; otherwise status "SUCCESS" and database
    "UP". *)
Theorem service_status_reports_probe (strftime_local : float -> string) (w : World) :
  GET_service_status strftime_local w =
    (Json 200
       {| ServiceStatusResponse.service := "api-management-service";
          ServiceStatusResponse.timestamp := strftime_local (wall_clock w 0);
          ServiceStatusResponse.database :=
            match status_probe (postgres w 0) with
            | None => "UP"
            | Some _ => "DOWN"
            end;
          ServiceStatusResponse.status :=
            match status_probe (postgres w 0) with
            | None => "SUCCESS"
            | Some _ => "FAILURE"
            end;
          ServiceStatusResponse.message :=
            match status_probe (postgres w 0) with
            | None =>
                "API Management Service is operational with database connectivity"
            | Some msg =>
                "API Management Service is degraded - database connectivity issue: "
                  ++ msg
            end |},
     tick (next_session w)) /\
  is_success (fst (GET_service_status strftime_local w)) = true /\
  (forall msg : string,
      on_connect (postgres w 0) = Some msg ->
      status_probe (postgres w 0) = Some msg) /\
  (forall msg : string,
      on_connect (postgres w 0) = None ->
      on_cursor (postgres w 0) = None ->
      on_execute (postgres w 0) "SELECT 1" = Some msg ->
      status_probe (postgres w 0) = Some msg).
Proof.
  unfold GET_service_status, route, service_status, try_except, time_strftime,
    psycopg2_connect, conn_cursor, cursor_execute, cursor_close, conn_close,
    may_raise, status_probe, first_failure, bind, time_time, ret, raise.
  destruct (on_connect (postgres w 0)) as [m1|];
    [repeat split; intros; first [reflexivity | congruence]|].
  destruct (on_cursor (postgres w 0)) as [m2|];
    [repeat split; intros; first [reflexivity | congruence]|].
  destruct (on_execute (postgres w 0) "SELECT 1") as [m3|];
    [repeat split; intros; first [reflexivity | congruence]|].
  destruct (on_cursor_close (postgres w 0)) as [m4|];
    [repeat split; intros; first [reflexivity | congruence]|].
  destruct (on_close (postgres w 0)) as [m5|];
    repeat split; intros; first [reflexivity | congruence].
Qed.

Lemma service_status_reports_probe_witness :
  fst (GET_service_status Fixtures.strftime_utc Fixtures.ticking) =
    Json 200
      {| ServiceStatusResponse.service := "api-management-service";
         ServiceStatusResponse.timestamp := "2023-11-14 22:13:20";
         ServiceStatusResponse.database := "DOWN";
         ServiceStatusResponse.status := "FAILURE";
         ServiceStatusResponse.message :=
           "API Management Service is degraded - database connectivity issue: connection refused" |} /\
  fst (GET_service_status Fixtures.strftime_utc Fixtures.steady) =
    Json 200
      {| ServiceStatusResponse.service := "api-management-service";
         ServiceStatusResponse.timestamp := "2023-11-14 22:13:20";
         ServiceStatusResponse.database := "UP";
         ServiceStatusResponse.status := "SUCCESS";
         ServiceStatusResponse.message :=
           "API Management Service is operational with database connectivity" |}.
Proof.
  split.
  - rewrite (proj1 (service_status_reports_probe Fixtures.strftime_utc
                      Fixtures.ticking)).
    reflexivity.
  - rewrite (proj1 (service_status_reports_probe Fixtures.strftime_utc
                      Fixtures.steady)).
    reflexivity.
Defined.

(** ** The marketing routes *)

Lemma required_str_present o field :
  is_str (member field o) = true -> exists s, required_str o field = inr s.
Proof.
  unfold required_str, is_str.
  destruct (member field o) as [[]|]; intros H; try discriminate H.
  eexists; reflexivity.
Qed.

Lemma optional_str_present o field :
  is_optional_str (member field o) = true ->
  exists v, optional_str o field = inr v.
Proof.
  unfold optional_str, is_optional_str.
  destruct (member field o) as [[]|]; intros H; try discriminate H;
    eexists; reflexivity.
Qed.

Lemma Fixtures_simple_email_needs_at (s : string) :
  index 0 "@" s = None -> Fixtures.simple_email s = None.
Proof.
  intros H. unfold Fixtures.simple_email. now rewrite H.
Qed.

Section MarketingProperties.

Variable validate_email : string -> option string.

Lemma required_email_rejected o :
  email_ok validate_email o = false ->
  exists errs, required_email validate_email o "email" = inl errs.
Proof.
  unfold email_ok, required_email, invalid.
  destruct (member "email" o) as [[]|]; try (intros _; eexists; reflexivity).
  destruct (validate_email s); intros H; [discriminate H | eexists; reflexivity].
Qed.

Lemma required_email_accepted o :
  email_ok validate_email o = true ->
  exists e, required_email validate_email o "email" = inr e.
Proof.
  unfold email_ok, required_email.
  destruct (member "email" o) as [[]|]; try discriminate.
  destruct (validate_email s); intros H; [eexists; reflexivity | discriminate H].
Qed.

(** Whatever the other members are, each marketing route answers 422 to an
    object whose email is not accepted, and leaves the world untouched. *)
Lemma marketing_routes_reject o (w : World) :
  email_ok validate_email o = false ->
  (exists errs,
      POST_contact_submissions validate_email (JObj o) w
      = (Error 422 (Errors errs), w)) /\
  (exists errs,
      POST_newsletter_subscriptions validate_email (JObj o) w
      = (Error 422 (Errors errs), w)) /\
  (exists errs,
      POST_trial_waitlist validate_email (JObj o) w
      = (Error 422 (Errors errs), w)).
Proof.
  intros Hbad.
  destruct (required_email_rejected o Hbad) as (errs & Hemail).
  unfold POST_contact_submissions, POST_newsletter_subscriptions,
    POST_trial_waitlist, route_with_body, validate_ContactSubmission,
    validate_NewsletterSubscription, validate_TrialWaitlistEntry.
  rewrite Hemail.
  repeat split.
  - destruct (required_str o "name"), (required_str o "subject"),
      (required_str o "message"), (optional_str o "company");
      eexists; reflexivity.
  - eexists; reflexivity.
  - destruct (required_str o "full_name"), (optional_str o "company"),
      (optional_str o "selected_plan");
      eexists; reflexivity.
Qed.

End MarketingProperties.

(** C5. On the three marketing routes, for any [EmailStr] check that
    rejects an address without an at-sign: an object whose email the check
    does not accept, and in particular one whose email is "not-an-email",
    is answered with 422 and a list of validation errors, never 201; an
    object with an accepted email and every required member is answered
    with 201 and a body holding the message and a freshly generated,
    non-empty identifier under submission_id, subscription_id or
    waitlist_id. *)
Theorem marketing_routes_validate_email
    (validate_email : string -> option string) (w : World)
    (bad rest contact subscription waitlist : list (string * json)) :
  (forall s : string, index 0 "@" s = None -> validate_email s = None) ->
  email_ok validate_email bad = false ->
  well_formed_contact validate_email contact = true ->
  well_formed_subscription validate_email subscription = true ->
  well_formed_waitlist validate_email waitlist = true ->
  let example := ("email", JStr "not-an-email") :: rest in
  let fresh := UUID.str (UUID.uuid4 (urandom w 0)) in
  (forall payload : list (string * json),
      payload = bad \/ payload = example ->
      (exists errs,
          POST_contact_submissions validate_email (JObj payload) w
          = (Error 422 (Errors errs), w)) /\
      (exists errs,
          POST_newsletter_subscriptions validate_email (JObj payload) w
          = (Error 422 (Errors errs), w)) /\
      (exists errs,
          POST_trial_waitlist validate_email (JObj payload) w
          = (Error 422 (Errors errs), w)) /\
      status_of (fst (POST_contact_submissions validate_email (JObj payload) w))
        <> 201 /\
      status_of (fst (POST_newsletter_subscriptions validate_email (JObj payload) w))
        <> 201 /\
      status_of (fst (POST_trial_waitlist validate_email (JObj payload) w))
        <> 201) /\
  POST_contact_submissions validate_email (JObj contact) w =
    (Json 201 {| Accepted.message := "Contact form submitted successfully";
                 Accepted.generated := Some ("submission_id", fresh) |},
     draw_entropy w) /\
  POST_newsletter_subscriptions validate_email (JObj subscription) w =
    (Json 201 {| Accepted.message := "Subscribed to newsletter successfully";
                 Accepted.generated := Some ("subscription_id", fresh) |},
     draw_entropy w) /\
  POST_trial_waitlist validate_email (JObj waitlist) w =
    (Json 201 {| Accepted.message := "Added to trial waitlist successfully";
                 Accepted.generated := Some ("waitlist_id", fresh) |},
     draw_entropy w) /\
  fresh <> "".
Proof.
  intros Hat Hbad Hcontact Hsub Hwait example fresh.
  assert (Hexample : email_ok validate_email example = false).
  { unfold email_ok, example. cbn [member String.eqb Ascii.eqb Bool.eqb].
    now rewrite (Hat "not-an-email" eq_refl). }
  split.
  { intros payload Hpayload.
    assert (Hrej : email_ok validate_email payload = false)
      by (destruct Hpayload as [-> | ->]; assumption).
    destruct (marketing_routes_reject validate_email payload w Hrej)
      as ((e1 & H1) & (e2 & H2) & (e3 & H3)).
    rewrite H1, H2, H3. cbn [fst status_of].
    repeat split; try (eexists; reflexivity); discriminate. }
  unfold well_formed_contact, well_formed_subscription, well_formed_waitlist
    in Hcontact, Hsub, Hwait.
  repeat rewrite andb_true_iff in Hcontact.
  repeat rewrite andb_true_iff in Hwait.
  destruct Hcontact as ((((Hce & Hcn) & Hcs) & Hcm) & Hcc).
  destruct Hwait as (((Hwe & Hwn) & Hwc) & Hwp).
  destruct (required_email_accepted validate_email _ Hce) as (ce & Ece).
  destruct (required_str_present _ _ Hcn) as (cn & Ecn).
  destruct (required_str_present _ _ Hcs) as (cs & Ecs).
  destruct (required_str_present _ _ Hcm) as (cm & Ecm).
  destruct (optional_str_present _ _ Hcc) as (cc & Ecc).
  destruct (required_email_accepted validate_email _ Hsub) as (se & Ese).
  destruct (required_email_accepted validate_email _ Hwe) as (we & Ewe).
  destruct (required_str_present _ _ Hwn) as (wn & Ewn).
  destruct (optional_str_present _ _ Hwc) as (wc & Ewc).
  destruct (optional_str_present _ _ Hwp) as (wp & Ewp).
  unfold POST_contact_submissions, POST_newsletter_subscriptions,
    POST_trial_waitlist, route_with_body, validate_ContactSubmission,
    validate_NewsletterSubscription, validate_TrialWaitlistEntry.
  rewrite Ece, Ecn, Ecs, Ecm, Ecc, Ese, Ewe, Ewn, Ewc, Ewp.
  repeat (split; [reflexivity|]).
  apply uuid_str_nonempty.
Qed.

Lemma marketing_routes_validate_email_witness :
  (exists errs,
      POST_contact_submissions Fixtures.simple_email
        (JObj Fixtures.bad_contact) Fixtures.steady
      = (Error 422 (Errors errs), Fixtures.steady)) /\
  POST_contact_submissions Fixtures.simple_email
    (JObj Fixtures.contact) Fixtures.steady =
    (Json 201
       {| Accepted.message := "Contact form submitted successfully";
          Accepted.generated :=
            Some ("submission_id", "01234567-89ab-4def-8123-456789abcdef") |},
     draw_entropy Fixtures.steady) /\
  POST_newsletter_subscriptions Fixtures.simple_email
    (JObj Fixtures.subscription) Fixtures.steady =
    (Json 201
       {| Accepted.message := "Subscribed to newsletter successfully";
          Accepted.generated :=
            Some ("subscription_id", "01234567-89ab-4def-8123-456789abcdef") |},
     draw_entropy Fixtures.steady) /\
  POST_trial_waitlist Fixtures.simple_email
    (JObj Fixtures.waitlist) Fixtures.steady =
    (Json 201
       {| Accepted.message := "Added to trial waitlist successfully";
          Accepted.generated :=
            Some ("waitlist_id", "01234567-89ab-4def-8123-456789abcdef") |},
     draw_entropy Fixtures.steady).
Proof.
  destruct (marketing_routes_validate_email Fixtures.simple_email
              Fixtures.steady Fixtures.bad_contact [] Fixtures.contact
              Fixtures.subscription Fixtures.waitlist
              Fixtures_simple_email_needs_at eq_refl eq_refl eq_refl eq_refl)
    as (Hrej & Hc & Hs & Hw & _).
  destruct (Hrej Fixtures.bad_contact (or_introl eq_refl)) as (Hbad & _).
  split; [exact Hbad|].
  split; [exact Hc|]. split; [exact Hs | exact Hw].
Defined.

(** ** Further properties of the registry routes *)

Lemma not_str_false_iff (s : string) : Py.not_str s = false <-> s <> "".
Proof.
  destruct s; simpl; split; intros H; try discriminate; try reflexivity.
  contradiction H. reflexivity.
Qed.

Section RegistryDetails.

Variable strftime_local : float -> string.

(** X1. DELETE /api/v1/apis/{id} succeeds exactly when the identifier is
    not empty; it then answers 200 with the message "API {id} deleted
    successfully"; in both cases it observes nothing of the world. *)
Theorem delete_api_confirms_identifier (api_id : string) (w : World) :
  (is_success (fst (DELETE_api api_id w)) = true <-> api_id <> "") /\
  (api_id <> "" ->
   fst (DELETE_api api_id w) =
     Json 200 {| Accepted.message := "API " ++ api_id ++ " deleted successfully";
                 Accepted.generated := None |}) /\
  snd (DELETE_api api_id w) = w.
Proof.
  destruct api_id as [|c rest].
  - split; [split; [discriminate | intros H; contradiction H; reflexivity]|].
    split; [intros H; contradiction H; reflexivity | reflexivity].
  - split; [split; [discriminate | reflexivity]|].
    split; reflexivity.
Qed.

(** X2. For a non-empty identifier GET /api/v1/apis/{id} fabricates the
    same descriptor whatever the identifier: only api_id (the identifier)
    and the two timestamps vary; created_at is rendered from one clock
    reading and updated_at from the next one, so they need not agree; no
    entropy is drawn. *)
Theorem get_api_fabricates_descriptor (api_id : string) (w : World) :
  api_id <> "" ->
  GET_api strftime_local api_id w =
    (Json 200
       {| ApiResponse.api_id := api_id;
          ApiResponse.name := "Sample API";
          ApiResponse.description := "This is a sample API";
          ApiResponse.base_url := "https://api.example.com";
          ApiResponse.version := "1.0.0";
          ApiResponse.owner_id := "user-123";
          ApiResponse.documentation_url := Some "https://docs.example.com";
          ApiResponse.tags := ["sample"; "example"];
          ApiResponse.created_at := strftime_local (wall_clock w 0);
          ApiResponse.updated_at := strftime_local (wall_clock w 1) |},
     tick (tick w)).
Proof.
  intros Hid. destruct api_id as [|c rest]; [contradiction Hid; reflexivity|].
  reflexivity.
Qed.

(** X3. For a non-empty identifier and a payload that validates, PUT
    /api/v1/apis/{id} answers with the payload's seven fields under the
    path identifier, and with timestamps rendered from two successive
    clock readings; no entropy is drawn. *)
Theorem update_api_echoes_payload (api_id : string) (body : json)
    (request : ApiRegistrationRequest.t) (w : World) :
  api_id <> "" ->
  validate_ApiRegistrationRequest body = inr request ->
  PUT_api strftime_local api_id body w =
    (Json 200
       {| ApiResponse.api_id := api_id;
          ApiResponse.name := ApiRegistrationRequest.name request;
          ApiResponse.description := ApiRegistrationRequest.description request;
          ApiResponse.base_url := ApiRegistrationRequest.base_url request;
          ApiResponse.version := ApiRegistrationRequest.version request;
          ApiResponse.owner_id := ApiRegistrationRequest.owner_id request;
          ApiResponse.documentation_url :=
            ApiRegistrationRequest.documentation_url request;
          ApiResponse.tags := ApiRegistrationRequest.tags request;
          ApiResponse.created_at := strftime_local (wall_clock w 0);
          ApiResponse.updated_at := strftime_local (wall_clock w 1) |},
     tick (tick w)).
Proof.
  intros Hid Hvalid.
  destruct api_id as [|c rest]; [contradiction Hid; reflexivity|].
  unfold PUT_api, route_with_body. rewrite Hvalid. reflexivity.
Qed.

(** X4. Two registrations in a row: each draws its own entropy and reads
    the clock once, so the second descriptor's api_id comes from the second
    draw and its timestamps from the second reading. *)
Theorem successive_registrations_use_successive_draws (body1 body2 : json)
    (request1 request2 : ApiRegistrationRequest.t) (w : World) :
  validate_ApiRegistrationRequest body1 = inr request1 ->
  validate_ApiRegistrationRequest body2 = inr request2 ->
  exists (d1 d2 : ApiResponse.t) (w1 w2 : World),
    POST_apis strftime_local body1 w = (Json 200 d1, w1) /\
    POST_apis strftime_local body2 w1 = (Json 200 d2, w2) /\
    ApiResponse.api_id d1 = UUID.str (UUID.uuid4 (urandom w 0)) /\
    ApiResponse.api_id d2 = UUID.str (UUID.uuid4 (urandom w 1)) /\
    ApiResponse.created_at d1 = strftime_local (wall_clock w 0) /\
    ApiResponse.created_at d2 = strftime_local (wall_clock w 1) /\
    ApiResponse.name d1 = ApiRegistrationRequest.name request1 /\
    ApiResponse.name d2 = ApiRegistrationRequest.name request2.
Proof.
  intros H1 H2.
  unfold POST_apis, route_with_body. rewrite H1, H2.
  do 4 eexists.
  split; [reflexivity|]. split; [reflexivity|].
  repeat split.
Qed.

(** X5. GET /api/v1/apis: the k-th descriptor (k = 0, 1, 2) is numbered
    k + 1 in its name, description and URLs, takes its api_id from draw k
    and its timestamps from clock readings 2k and 2k + 1; the request
    consumes three draws and six readings and opens no connection. *)
Theorem list_apis_numbers_samples (w : World) :
  exists w' : World,
    GET_apis strftime_local w =
      (Json 200
         {| Listing.data :=
              [sample_api strftime_local w 0; sample_api strftime_local w 1;
               sample_api strftime_local w 2];
            Listing.total := 3 |},
       w') /\
    (forall j : nat, urandom w' j = urandom w (3 + j)) /\
    (forall j : nat, wall_clock w' j = wall_clock w (6 + j)) /\
    postgres w' = postgres w.
Proof.
  eexists. split; [reflexivity|].
  repeat split.
Qed.

End RegistryDetails.

Lemma get_api_fabricates_descriptor_witness :
  exists d : ApiResponse.t,
    fst (GET_api Fixtures.strftime_utc "billing-1" Fixtures.ticking) = Json 200 d /\
    ApiResponse.created_at d = "2023-11-14 22:13:20" /\
    ApiResponse.updated_at d = "2023-11-14 22:13:21".
Proof.
  eexists.
  rewrite (get_api_fabricates_descriptor Fixtures.strftime_utc "billing-1"
             Fixtures.ticking);
    [|discriminate].
  split; [reflexivity|].
  split; vm_compute; reflexivity.
Defined.

Lemma update_api_echoes_payload_witness :
  exists (d : ApiResponse.t) (w' : World),
    PUT_api Fixtures.strftime_utc "billing-1" Fixtures.registration
      Fixtures.ticking = (Json 200 d, w') /\
    ApiResponse.name d = "Billing" /\
    ApiResponse.documentation_url d = None /\
    ApiResponse.tags d = ["finance"; "internal"].
Proof.
  do 2 eexists.
  rewrite (update_api_echoes_payload Fixtures.strftime_utc "billing-1"
             Fixtures.registration Fixtures.registration_request
             Fixtures.ticking);
    [|discriminate|reflexivity].
  split; [reflexivity|].
  repeat split.
Defined.

Lemma successive_registrations_use_successive_draws_witness :
  exists (d1 d2 : ApiResponse.t) (w1 w2 : World),
    POST_apis Fixtures.strftime_utc Fixtures.registration Fixtures.ticking
      = (Json 200 d1, w1) /\
    POST_apis Fixtures.strftime_utc Fixtures.registration w1 = (Json 200 d2, w2) /\
    ApiResponse.api_id d1 = "01234567-89ab-4def-8123-456789abcdef" /\
    ApiResponse.api_id d2 = "01234567-89ab-4def-8123-456789abcdf0".
Proof.
  destruct (successive_registrations_use_successive_draws Fixtures.strftime_utc
              Fixtures.registration Fixtures.registration
              Fixtures.registration_request Fixtures.registration_request
              Fixtures.ticking eq_refl eq_refl)
    as (d1 & d2 & w1 & w2 & R1 & R2 & I1 & I2 & _).
  exists d1, d2, w1, w2.
  split; [exact R1|]. split; [exact R2|].
  split; [rewrite I1 | rewrite I2]; vm_compute; reflexivity.
Defined.

(** ** Which bodies the routes accept *)

Lemma required_str_absent o field :
  is_str (member field o) = false -> exists errs, required_str o field = inl errs.
Proof.
  unfold required_str, is_str, invalid.
  destruct (member field o) as [[]|]; intros H; try discriminate H;
    eexists; reflexivity.
Qed.

Lemma optional_str_absent o field :
  is_optional_str (member field o) = false ->
  exists errs, optional_str o field = inl errs.
Proof.
  unfold optional_str, is_optional_str, invalid.
  destruct (member field o) as [[]|]; intros H; try discriminate H;
    eexists; reflexivity.
Qed.

Lemma str_items_all_strings field (items : list json) :
  forallb is_json_str items = true ->
  forall i, exists l, str_items field i items = inr l.
Proof.
  induction items as [|v items IH]; intros Hall i; [eexists; reflexivity|].
  simpl in Hall. apply andb_true_iff in Hall as [Hv Hrest].
  destruct (IH Hrest (i + 1)) as (l & Hl).
  destruct v; try discriminate Hv.
  simpl. rewrite Hl. eexists; reflexivity.
Qed.

Lemma str_items_some_other field (items : list json) :
  forallb is_json_str items = false ->
  forall i, exists errs, str_items field i items = inl errs.
Proof.
  induction items as [|v items IH]; intros Hsome i; [discriminate Hsome|].
  simpl in Hsome. apply andb_false_iff in Hsome as [Hv | Hrest].
  - destruct v; try discriminate Hv;
      simpl; destruct (str_items field (i + 1) items); eexists; reflexivity.
  - destruct (IH Hrest (i + 1)) as (errs & Herrs).
    simpl. rewrite Herrs. destruct v; eexists; reflexivity.
Qed.

Lemma list_str_present o field :
  is_str_list (member field o) = true -> exists l, list_str o field = inr l.
Proof.
  unfold list_str, is_str_list.
  destruct (member field o) as [[]|]; intros H; try discriminate H.
  - apply str_items_all_strings. exact H.
  - eexists; reflexivity.
Qed.

Lemma list_str_absent o field :
  is_str_list (member field o) = false -> exists errs, list_str o field = inl errs.
Proof.
  unfold list_str, is_str_list, invalid.
  destruct (member field o) as [[]|]; intros H; try discriminate H;
    try (eexists; reflexivity).
  apply str_items_some_other. exact H.
Qed.

(** Decide one member and replace its validation by the outcome. *)
Ltac settle_required_str o field :=
  let H := fresh "H" in
  let v := fresh "v" in
  destruct (is_str (member field o)) eqn:H;
  [ destruct (required_str_present o field H) as (v & ->)
  | destruct (required_str_absent o field H) as (v & ->) ].

Ltac settle_optional_str o field :=
  let H := fresh "H" in
  let v := fresh "v" in
  destruct (is_optional_str (member field o)) eqn:H;
  [ destruct (optional_str_present o field H) as (v & ->)
  | destruct (optional_str_absent o field H) as (v & ->) ].

Ltac settle_list_str o field :=
  let H := fresh "H" in
  let v := fresh "v" in
  destruct (is_str_list (member field o)) eqn:H;
  [ destruct (list_str_present o field H) as (v & ->)
  | destruct (list_str_absent o field H) as (v & ->) ].

(** The validator accepts exactly the well-formed bodies. *)
Lemma validate_ApiRegistrationRequest_decides (body : json) :
  if well_formed_registration body
  then exists request, validate_ApiRegistrationRequest body = inr request
  else exists errs, validate_ApiRegistrationRequest body = inl errs.
Proof.
  destruct body as [| | | | |items|o]; try (eexists; reflexivity).
  unfold well_formed_registration, object_with, validate_ApiRegistrationRequest.
  settle_required_str o "name";
    settle_required_str o "description";
    settle_required_str o "base_url";
    settle_required_str o "version";
    settle_required_str o "owner_id";
    settle_optional_str o "documentation_url";
    settle_list_str o "tags";
    eexists; reflexivity.
Qed.

Section AcceptedBodies.

Variable strftime_local : float -> string.
Variable validate_email : string -> option string.

Ltac settle_email o :=
  let H := fresh "H" in
  let v := fresh "v" in
  destruct (email_ok validate_email o) eqn:H;
  [ destruct (required_email_accepted validate_email o H) as (v & ->)
  | destruct (required_email_rejected validate_email o H) as (v & ->) ].

Lemma validate_ContactSubmission_decides (body : json) :
  if object_with (well_formed_contact validate_email) body
  then exists sub, validate_ContactSubmission validate_email body = inr sub
  else exists errs, validate_ContactSubmission validate_email body = inl errs.
Proof.
  destruct body as [| | | | |items|o]; try (eexists; reflexivity).
  unfold object_with, well_formed_contact, validate_ContactSubmission.
  settle_email o;
    settle_required_str o "name";
    settle_required_str o "subject";
    settle_required_str o "message";
    settle_optional_str o "company";
    eexists; reflexivity.
Qed.

Lemma validate_NewsletterSubscription_decides (body : json) :
  if object_with (well_formed_subscription validate_email) body
  then exists sub, validate_NewsletterSubscription validate_email body = inr sub
  else exists errs, validate_NewsletterSubscription validate_email body = inl errs.
Proof.
  destruct body as [| | | | |items|o]; try (eexists; reflexivity).
  unfold object_with, well_formed_subscription, validate_NewsletterSubscription.
  settle_email o; eexists; reflexivity.
Qed.

Lemma validate_TrialWaitlistEntry_decides (body : json) :
  if object_with (well_formed_waitlist validate_email) body
  then exists entry, validate_TrialWaitlistEntry validate_email body = inr entry
  else exists errs, validate_TrialWaitlistEntry validate_email body = inl errs.
Proof.
  destruct body as [| | | | |items|o]; try (eexists; reflexivity).
  unfold object_with, well_formed_waitlist, validate_TrialWaitlistEntry.
  settle_email o;
    settle_required_str o "full_name";
    settle_optional_str o "company";
    settle_optional_str o "selected_plan";
    eexists; reflexivity.
Qed.

(** X7. Each marketing route answers 201 exactly for a well-formed object
    (an accepted email, every required member a string, every optional
    member absent, null or a string) and 422 for every other body: a
    missing or non-string required member is rejected like a bad email.  An
    accepted request draws entropy once; a rejected one observes nothing. *)
Theorem marketing_routes_accept_exactly_well_formed (body : json) (w : World) :
  (status_of (fst (POST_contact_submissions validate_email body w)) =
     (if object_with (well_formed_contact validate_email) body then 201 else 422) /\
   snd (POST_contact_submissions validate_email body w) =
     (if object_with (well_formed_contact validate_email) body
      then draw_entropy w else w)) /\
  (status_of (fst (POST_newsletter_subscriptions validate_email body w)) =
     (if object_with (well_formed_subscription validate_email) body
      then 201 else 422) /\
   snd (POST_newsletter_subscriptions validate_email body w) =
     (if object_with (well_formed_subscription validate_email) body
      then draw_entropy w else w)) /\
  (status_of (fst (POST_trial_waitlist validate_email body w)) =
     (if object_with (well_formed_waitlist validate_email) body then 201 else 422) /\
   snd (POST_trial_waitlist validate_email body w) =
     (if object_with (well_formed_waitlist validate_email) body
      then draw_entropy w else w)).
Proof.
  pose proof (validate_ContactSubmission_decides body) as Hc.
  pose proof (validate_NewsletterSubscription_decides body) as Hn.
  pose proof (validate_TrialWaitlistEntry_decides body) as Ht.
  unfold POST_contact_submissions, POST_newsletter_subscriptions,
    POST_trial_waitlist, route_with_body.
  destruct (object_with (well_formed_contact validate_email) body);
    destruct Hc as (c & ->);
    destruct (object_with (well_formed_subscription validate_email) body);
    destruct Hn as (n & ->);
    destruct (object_with (well_formed_waitlist validate_email) body);
    destruct Ht as (t & ->);
    repeat split.
Qed.

(** X8. The marketing handlers neither store nor echo what was submitted:
    in the same world, two well-formed payloads sent to the same route get
    the same response and leave the same world behind. *)
Theorem marketing_responses_ignore_payload
    (contact1 contact2 sub1 sub2 entry1 entry2 : json) (w : World) :
  object_with (well_formed_contact validate_email) contact1 = true ->
  object_with (well_formed_contact validate_email) contact2 = true ->
  object_with (well_formed_subscription validate_email) sub1 = true ->
  object_with (well_formed_subscription validate_email) sub2 = true ->
  object_with (well_formed_waitlist validate_email) entry1 = true ->
  object_with (well_formed_waitlist validate_email) entry2 = true ->
  POST_contact_submissions validate_email contact1 w =
    POST_contact_submissions validate_email contact2 w /\
  POST_newsletter_subscriptions validate_email sub1 w =
    POST_newsletter_subscriptions validate_email sub2 w /\
  POST_trial_waitlist validate_email entry1 w =
    POST_trial_waitlist validate_email entry2 w.
Proof.
  intros Hc1 Hc2 Hs1 Hs2 He1 He2.
  pose proof (validate_ContactSubmission_decides contact1) as D1.
  pose proof (validate_ContactSubmission_decides contact2) as D2.
  pose proof (validate_NewsletterSubscription_decides sub1) as D3.
  pose proof (validate_NewsletterSubscription_decides sub2) as D4.
  pose proof (validate_TrialWaitlistEntry_decides entry1) as D5.
  pose proof (validate_TrialWaitlistEntry_decides entry2) as D6.
  rewrite Hc1 in D1. rewrite Hc2 in D2. rewrite Hs1 in D3.
  rewrite Hs2 in D4. rewrite He1 in D5. rewrite He2 in D6.
  destruct D1 as (x1 & E1), D2 as (x2 & E2), D3 as (x3 & E3),
    D4 as (x4 & E4), D5 as (x5 & E5), D6 as (x6 & E6).
  unfold POST_contact_submissions, POST_newsletter_subscriptions,
    POST_trial_waitlist, route_with_body.
  rewrite E1, E2, E3, E4, E5, E6.
  repeat split.
Qed.

End AcceptedBodies.

Lemma marketing_responses_ignore_payload_witness :
  POST_contact_submissions Fixtures.simple_email (JObj Fixtures.contact)
    Fixtures.steady =
  POST_contact_submissions Fixtures.simple_email (JObj Fixtures.other_contact)
    Fixtures.steady.
Proof.
  exact (proj1 (marketing_responses_ignore_payload Fixtures.simple_email
                  (JObj Fixtures.contact) (JObj Fixtures.other_contact)
                  (JObj Fixtures.subscription) (JObj Fixtures.subscription)
                  (JObj Fixtures.waitlist) (JObj Fixtures.waitlist)
                  Fixtures.steady
                  eq_refl eq_refl eq_refl eq_refl eq_refl eq_refl)).
Defined.

Lemma marketing_routes_accept_exactly_well_formed_witness :
  status_of (fst (POST_contact_submissions Fixtures.simple_email
                    (JObj Fixtures.incomplete_contact) Fixtures.steady)) = 422 /\
  status_of (fst (POST_contact_submissions Fixtures.simple_email
                    (JObj Fixtures.contact) Fixtures.steady)) = 201 /\
  status_of (fst (POST_trial_waitlist Fixtures.simple_email
                    (JArr []) Fixtures.steady)) = 422.
Proof.
  destruct (marketing_routes_accept_exactly_well_formed Fixtures.simple_email
              (JObj Fixtures.incomplete_contact) Fixtures.steady)
    as ((H1 & _) & _).
  destruct (marketing_routes_accept_exactly_well_formed Fixtures.simple_email
              (JObj Fixtures.contact) Fixtures.steady)
    as ((H2 & _) & _).
  destruct (marketing_routes_accept_exactly_well_formed Fixtures.simple_email
              (JArr []) Fixtures.steady)
    as (_ & _ & (H3 & _)).
  split; [exact H1|]. split; [exact H2 | exact H3].
Defined.

(** ** What a request observes *)

Section Keeps.

Context {X : Type} (stream : World -> X).

Lemma ret_keeps {A : Type} (a : A) : keeps stream (ret a).
Proof.
  intros w. reflexivity.
Qed.

Lemma raise_keeps {A : Type} (e : exn) : keeps stream (@raise A e).
Proof.
  intros w. reflexivity.
Qed.

Lemma bind_keeps {A B : Type} (m : M A) (k : A -> M B) :
  keeps stream m -> (forall a, keeps stream (k a)) -> keeps stream (bind m k).
Proof.
  intros Hm Hk w. unfold bind.
  specialize (Hm w). destruct (m w) as [[a|e] w']; simpl in Hm.
  - rewrite (Hk a w'). exact Hm.
  - exact Hm.
Qed.

Lemma try_except_keeps {A : Type} (body : M A) (handler : exn -> M A) :
  keeps stream body -> (forall e, keeps stream (handler e)) ->
  keeps stream (try_except body handler).
Proof.
  intros Hb Hh w. unfold try_except.
  specialize (Hb w). destruct (body w) as [[a|e] w']; simpl in Hb.
  - exact Hb.
  - rewrite (Hh e w'). exact Hb.
Qed.

Lemma comprehension_keeps {A B : Type} (f : A -> M B) (xs : list A) :
  (forall x, keeps stream (f x)) -> keeps stream (comprehension f xs).
Proof.
  intros Hf. induction xs as [|x xs IH]; simpl.
  - apply ret_keeps.
  - apply bind_keeps; [apply Hf|]. intros y.
    apply bind_keeps; [exact IH|]. intros ys. apply ret_keeps.
Qed.

Lemma int_keeps (x : float) : keeps stream (int x).
Proof.
  unfold int. destruct (Py.int_of_float x); [apply ret_keeps | apply raise_keeps].
Qed.

Lemma may_raise_keeps (o : option string) : keeps stream (may_raise o).
Proof.
  destruct o; [apply raise_keeps | apply ret_keeps].
Qed.

Lemma route_keeps {A : Type} (status_code : Z) (handler : M A) (w : World) :
  keeps stream handler -> stream (snd (route status_code handler w)) = stream w.
Proof.
  intros H. unfold route. specialize (H w).
  destruct (handler w) as [r w']. exact H.
Qed.

Lemma route_with_body_keeps {R A : Type} (validate : json -> validated R)
    (status_code : Z) (handler : R -> M A) (body : json) (w : World) :
  (forall request, keeps stream (handler request)) ->
  stream (snd (route_with_body validate status_code handler body w)) = stream w.
Proof.
  intros H. unfold route_with_body.
  destruct (validate body) as [errs|request]; [reflexivity|].
  apply route_keeps, H.
Qed.

End Keeps.

Lemma uuid4_str_keeps_database : keeps postgres uuid4_str.
Proof.
  intros w. reflexivity.
Qed.

Lemma time_time_keeps_database : keeps postgres time_time.
Proof.
  intros w. reflexivity.
Qed.

Lemma time_time_keeps_entropy : keeps urandom time_time.
Proof.
  intros w. reflexivity.
Qed.

Lemma psycopg2_connect_keeps_entropy host port dbname user password :
  keeps urandom (psycopg2_connect host port dbname user password).
Proof.
  intros w. unfold psycopg2_connect.
  destruct (on_connect (postgres w 0)); reflexivity.
Qed.

Create HintDb observes.
#[local] Hint Resolve ret_keeps raise_keeps bind_keeps try_except_keeps
  comprehension_keeps int_keeps may_raise_keeps uuid4_str_keeps_database
  time_time_keeps_database time_time_keeps_entropy
  psycopg2_connect_keeps_entropy : observes.

Ltac observes := unfold keeps_database, keeps_entropy; auto 12 with observes.

Section Observations.

Variable strftime_local : float -> string.
Variable start_time : float.
Variable validate_email : string -> option string.

Lemma register_api_keeps_database request :
  keeps_database (register_api strftime_local request).
Proof.
  unfold register_api, time_strftime. observes.
Qed.

Lemma get_api_keeps_database api_id :
  keeps_database (get_api strftime_local api_id).
Proof.
  unfold get_api, time_strftime. destruct (Py.not_str api_id); observes.
Qed.

Lemma update_api_keeps_database api_id request :
  keeps_database (update_api strftime_local api_id request).
Proof.
  unfold update_api, time_strftime. destruct (Py.not_str api_id); observes.
Qed.

Lemma delete_api_keeps_database api_id : keeps_database (delete_api api_id).
Proof.
  unfold delete_api. destruct (Py.not_str api_id); observes.
Qed.

Lemma list_apis_keeps_database : keeps_database (list_apis strftime_local).
Proof.
  unfold list_apis, time_strftime. observes.
Qed.

Lemma get_api_health_checks_keeps_database api_id :
  keeps_database (get_api_health_checks api_id).
Proof.
  unfold get_api_health_checks, health_check_entry. observes.
Qed.

Lemma health_check_keeps_entropy : keeps_entropy (health_check start_time).
Proof.
  unfold health_check, conn_close. observes.
Qed.

Lemma service_status_keeps_entropy : keeps_entropy (service_status strftime_local).
Proof.
  unfold service_status, time_strftime, conn_cursor, cursor_execute,
    cursor_close, conn_close.
  unfold keeps_entropy.
  apply bind_keeps; [observes|].
  intros [[db status] message]. observes.
Qed.

(** X9. Only the two status routes talk to the database: whatever the
    identifier, the body and the clock, and whether they succeed or fail,
    the registry, health-check and marketing routes leave the pending
    connection attempts untouched.  Conversely the status routes never
    draw entropy. *)
Theorem only_status_routes_open_connections (api_id : string) (body : json)
    (w : World) :
  postgres (snd (GET_root w)) = postgres w /\
  postgres (snd (POST_apis strftime_local body w)) = postgres w /\
  postgres (snd (GET_api strftime_local api_id w)) = postgres w /\
  postgres (snd (GET_apis strftime_local w)) = postgres w /\
  postgres (snd (PUT_api strftime_local api_id body w)) = postgres w /\
  postgres (snd (DELETE_api api_id w)) = postgres w /\
  postgres (snd (GET_health_checks api_id w)) = postgres w /\
  postgres (snd (POST_contact_submissions validate_email body w)) = postgres w /\
  postgres (snd (POST_newsletter_subscriptions validate_email body w)) = postgres w /\
  postgres (snd (POST_trial_waitlist validate_email body w)) = postgres w /\
  urandom (snd (GET_health start_time w)) = urandom w /\
  urandom (snd (GET_service_status strftime_local w)) = urandom w.
Proof.
  split; [reflexivity|].
  split; [apply route_with_body_keeps, register_api_keeps_database|].
  split; [apply route_keeps, get_api_keeps_database|].
  split; [apply route_keeps, list_apis_keeps_database|].
  split; [apply route_with_body_keeps, update_api_keeps_database|].
  split; [apply route_keeps, delete_api_keeps_database|].
  split; [apply route_keeps, get_api_health_checks_keeps_database|].
  split; [apply route_with_body_keeps; intros sub;
          unfold submit_contact_form; observes|].
  split; [apply route_with_body_keeps; intros sub;
          unfold subscribe_newsletter; observes|].
  split; [apply route_with_body_keeps; intros sub;
          unfold join_trial_waitlist; observes|].
  split; [apply route_keeps, health_check_keeps_entropy|].
  apply route_keeps, service_status_keeps_entropy.
Qed.

(** X10. /health is the weaker probe: whenever /service-status reports
    the database "UP" for a connection attempt, /health reports "UP" for
    the same attempt.  The converse fails: a server that accepts the
    connection but refuses a cursor is "UP" for /health and "DOWN" for
    /service-status. *)
Theorem service_status_up_implies_health_up (w : World) :
  ((exists r : ServiceStatusResponse.t,
       fst (GET_service_status strftime_local w) = Json 200 r /\
       ServiceStatusResponse.database r = "UP") ->
   exists h : HealthResponse.t,
     fst (GET_health start_time w) = Json 200 h /\
     HealthResponse.database h = "UP") /\
  (exists (h : HealthResponse.t) (r : ServiceStatusResponse.t),
      fst (GET_health start_time Fixtures.half_up) = Json 200 h /\
      HealthResponse.database h = "UP" /\
      fst (GET_service_status strftime_local Fixtures.half_up) = Json 200 r /\
      ServiceStatusResponse.database r = "DOWN" /\
      ServiceStatusResponse.message r =
        "API Management Service is degraded - database connectivity issue: cursor refused").
Proof.
  split.
  - unfold GET_service_status, GET_health, route, service_status, health_check,
      try_except, time_strftime, psycopg2_connect, conn_cursor, cursor_execute,
      cursor_close, conn_close, may_raise, bind, time_time, ret, raise.
    intros (r & Hr & Hup).
    destruct (on_connect (postgres w 0)) as [m1|];
      [inversion Hr; subst r; discriminate Hup|].
    destruct (on_cursor (postgres w 0)) as [m2|];
      [inversion Hr; subst r; discriminate Hup|].
    destruct (on_execute (postgres w 0) "SELECT 1") as [m3|];
      [inversion Hr; subst r; discriminate Hup|].
    destruct (on_cursor_close (postgres w 0)) as [m4|];
      [inversion Hr; subst r; discriminate Hup|].
    destruct (on_close (postgres w 0)) as [m5|];
      [inversion Hr; subst r; discriminate Hup|].
    eexists. split; reflexivity.
  - do 2 eexists. repeat split.
Qed.

End Observations.

Lemma service_status_up_implies_health_up_witness :
  exists h : HealthResponse.t,
    fst (GET_health 1699990000%float Fixtures.steady) = Json 200 h /\
    HealthResponse.database h = "UP".
Proof.
  apply (proj1 (service_status_up_implies_health_up Fixtures.strftime_utc
                  1699990000%float Fixtures.steady)).
  eexists. split; reflexivity.
Defined.

(** ** What the health-check records hold *)

(** X11. The health-check records are fabricated: in any two worlds with
    finite clocks, the records at the same index agree on api_id, status,
    response_time and details, so only check_id and timestamp vary.  The
    response times are 0.5, 0.6, 0.7, 0.8 and 0.9 (as binary64 values),
    every record has response_size 1024 and endpoint "/api/v1/resource",
    and a record is "healthy" exactly when its status_code is 200; the
    check_id of record i is the string of the UUID made from draw i. *)
Theorem health_check_records_are_fabricated (api_id : string) (w1 w2 : World) :
  clock_finite w1 ->
  clock_finite w2 ->
  exists (records1 records2 : list HealthCheck.t) (w1' w2' : World),
    GET_health_checks api_id w1 =
      (Json 200 {| Listing.data := records1; Listing.total := 5 |}, w1') /\
    GET_health_checks api_id w2 =
      (Json 200 {| Listing.data := records2; Listing.total := 5 |}, w2') /\
    Forall2
      (fun r1 r2 =>
         HealthCheck.api_id r1 = HealthCheck.api_id r2 /\
         HealthCheck.status r1 = HealthCheck.status r2 /\
         HealthCheck.response_time r1 = HealthCheck.response_time r2 /\
         HealthCheck.details r1 = HealthCheck.details r2)
      records1 records2 /\
    map HealthCheck.response_time records1 = [0.5; 0.6; 0.7; 0.8; 0.9]%float /\
    Forall
      (fun r =>
         (HealthCheck.status r = "healthy" <->
          HealthCheckDetails.status_code (HealthCheck.details r) = 200) /\
         HealthCheckDetails.response_size (HealthCheck.details r) = 1024 /\
         HealthCheckDetails.endpoint (HealthCheck.details r) = "/api/v1/resource")
      records1 /\
    (forall (i : nat) (r : HealthCheck.t),
        nth_error records1 i = Some r ->
        HealthCheck.check_id r = UUID.str (UUID.uuid4 (urandom w1 i))) /\
    (forall j : nat, urandom w1' j = urandom w1 (5 + j)) /\
    (forall j : nat, wall_clock w1' j = wall_clock w1 (5 + j)).
Proof.
  intros Hfin1 Hfin2.
  do 4 eexists.
  split; [apply (get_api_health_checks_run api_id w1 Hfin1)|].
  split; [apply (get_api_health_checks_run api_id w2 Hfin2)|].
  split; [repeat constructor|].
  split; [reflexivity|].
  split.
  { repeat constructor; cbn; intros H; try reflexivity; discriminate H. }
  split.
  { intros i r Hr.
    destruct (nth_error_entries_from _ _ _ _ _ _ Hr) as (x & _ & ->).
    reflexivity. }
  split; intros j; reflexivity.
Qed.

Lemma health_check_records_are_fabricated_witness :
  exists (records1 records2 : list HealthCheck.t),
    fst (GET_health_checks "billing-1" Fixtures.steady) =
      Json 200 {| Listing.data := records1; Listing.total := 5 |} /\
    fst (GET_health_checks "billing-1" Fixtures.ticking) =
      Json 200 {| Listing.data := records2; Listing.total := 5 |} /\
    map HealthCheck.status records1 = map HealthCheck.status records2 /\
    map HealthCheck.timestamp records1 <> map HealthCheck.timestamp records2.
Proof.
  destruct (health_check_records_are_fabricated "billing-1" Fixtures.steady
              Fixtures.ticking steady_clock_finite ticking_clock_finite)
    as (r1 & r2 & w1' & w2' & H1 & H2 & _).
  exists r1, r2.
  rewrite H1, H2.
  split; [reflexivity|]. split; [reflexivity|].
  rewrite (get_api_health_checks_run _ _ steady_clock_finite) in H1.
  rewrite (get_api_health_checks_run _ _ ticking_clock_finite) in H2.
  inversion H1. inversion H2.
  split; [reflexivity|].
  intros Heq. vm_compute in Heq. discriminate Heq.
Defined.

(** ** Nothing is stored *)

Section NoPersistence.

Variable strftime_local : float -> string.

(** X12. A registration leaves no trace.  Reading back the identifier that
    POST /api/v1/apis has just returned succeeds, but yields the fixed
    "Sample API" descriptor under that identifier, not the registered
    fields; the listing still holds the three numbered samples; and after
    DELETE of that identifier, which succeeds and observes nothing, the
    same GET answers exactly as it would have without the deletion. *)
Theorem registration_is_not_stored (body : json)
    (request : ApiRegistrationRequest.t) (w : World) :
  validate_ApiRegistrationRequest body = inr request ->
  exists (d : ApiResponse.t) (w1 : World),
    POST_apis strftime_local body w = (Json 200 d, w1) /\
    ApiResponse.name d = ApiRegistrationRequest.name request /\
    (exists (d' : ApiResponse.t) (w2 : World),
        GET_api strftime_local (ApiResponse.api_id d) w1 = (Json 200 d', w2) /\
        ApiResponse.api_id d' = ApiResponse.api_id d /\
        ApiResponse.name d' = "Sample API" /\
        ApiResponse.description d' = "This is a sample API" /\
        ApiResponse.owner_id d' = "user-123" /\
        ApiResponse.tags d' = ["sample"; "example"]) /\
    (exists (l : Listing.t ApiResponse.t) (w2 : World),
        GET_apis strftime_local w1 = (Json 200 l, w2) /\
        Listing.total l = 3 /\
        map ApiResponse.name (Listing.data l) =
          ["Sample API 1"; "Sample API 2"; "Sample API 3"]) /\
    (exists (confirmation : Accepted.t) (w2 : World),
        DELETE_api (ApiResponse.api_id d) w1 = (Json 200 confirmation, w2) /\
        GET_api strftime_local (ApiResponse.api_id d) w2 =
          GET_api strftime_local (ApiResponse.api_id d) w1).
Proof.
  intros Hvalid.
  pose proof (uuid_str_nonempty (UUID.uuid4 (urandom w 0))) as Hne.
  apply not_str_false_iff in Hne.
  unfold POST_apis, route_with_body. rewrite Hvalid.
  do 2 eexists. split; [reflexivity|].
  cbn [ApiResponse.api_id ApiResponse.name].
  split; [reflexivity|].
  split.
  { unfold GET_api, route, get_api. rewrite Hne.
    do 2 eexists. split; [reflexivity|]. repeat split. }
  split.
  { do 2 eexists. split; [reflexivity|]. split; reflexivity. }
  unfold DELETE_api, GET_api, route, delete_api, get_api. rewrite Hne.
  do 2 eexists. split; reflexivity.
Qed.

End NoPersistence.

Lemma registration_is_not_stored_witness :
  exists (d d' : ApiResponse.t) (w1 w2 : World),
    POST_apis Fixtures.strftime_utc Fixtures.registration Fixtures.steady
      = (Json 200 d, w1) /\
    ApiResponse.name d = "Billing" /\
    GET_api Fixtures.strftime_utc (ApiResponse.api_id d) w1 = (Json 200 d', w2) /\
    ApiResponse.name d' = "Sample API".
Proof.
  destruct (registration_is_not_stored Fixtures.strftime_utc
              Fixtures.registration Fixtures.registration_request
              Fixtures.steady eq_refl)
    as (d & w1 & Hpost & Hname & (d' & w2 & Hget & _ & Hname' & _) & _).
  exists d, d', w1, w2.
  split; [exact Hpost|]. split; [exact Hname|].
  split; [exact Hget | exact Hname'].
Defined.

(** ** Routing *)

Lemma path_param_inv (s : string) :
  path_param s = true -> s <> "" /\ Py.not_str s = false /\ no_slash s = true.
Proof.
  unfold path_param. intros H. apply andb_true_iff in H as [Hne Hns].
  apply negb_true_iff in Hne.
  repeat split; try assumption.
  intros ->. discriminate Hne.
Qed.

Lemma strip_prefix_append (p s : string) : strip_prefix p (p ++ s) = Some s.
Proof.
  induction p as [|c p IH]; simpl; [now destruct s|].
  now rewrite Ascii.eqb_refl.
Qed.

Lemma segment_no_slash (s : string) :
  no_slash s = true -> segment s = (s, "").
Proof.
  induction s as [|c s IH]; simpl; intros H; [reflexivity|].
  apply andb_true_iff in H as [Hc Hs]. apply negb_true_iff in Hc.
  now rewrite Hc, (IH Hs).
Qed.

Lemma segment_before_slash (s t : string) :
  no_slash s = true -> segment (s ++ String "/" t) = (s, String "/" t).
Proof.
  induction s as [|c s IH]; simpl; intros H; [reflexivity|].
  apply andb_true_iff in H as [Hc Hs]. apply negb_true_iff in Hc.
  now rewrite Hc, (IH Hs).
Qed.

Lemma segment_fst_no_slash (s : string) : no_slash (fst (segment s)) = true.
Proof.
  induction s as [|c s IH]; simpl; [reflexivity|].
  destruct (Ascii.eqb c "/") eqn:Hc; [reflexivity|].
  destruct (segment s) as [seg rest]. simpl in *. now rewrite Hc, IH.
Qed.

(** A template only ever delivers an identifier that its convertor
    matches: non-empty and free of slashes. *)
Lemma item_of_delivers (prefix suffix path api_id : string) :
  item_of prefix suffix path = Some api_id -> path_param api_id = true.
Proof.
  unfold item_of, path_param.
  destruct (strip_prefix prefix path) as [rest|]; [|discriminate].
  pose proof (segment_fst_no_slash rest) as Hns.
  destruct (segment rest) as [seg tail]. simpl in Hns.
  destruct (negb (Py.not_str seg)) eqn:Hne; simpl; [|discriminate].
  destruct (String.eqb tail suffix); [|discriminate].
  intros H. inversion H; subst. now rewrite Hne, Hns.
Qed.

Lemma item_of_whole (prefix api_id : string) :
  path_param api_id = true -> item_of prefix "" (prefix ++ api_id) = Some api_id.
Proof.
  intros H. destruct (path_param_inv _ H) as (_ & Hne & Hns).
  unfold item_of. rewrite strip_prefix_append, (segment_no_slash _ Hns), Hne.
  reflexivity.
Qed.

Lemma item_of_followed (prefix api_id t : string) :
  path_param api_id = true ->
  item_of prefix (String "/" t) (prefix ++ api_id ++ String "/" t) = Some api_id.
Proof.
  intros H. destruct (path_param_inv _ H) as (_ & Hne & Hns).
  unfold item_of.
  rewrite strip_prefix_append, (segment_before_slash _ _ Hns), Hne, String.eqb_refl.
  reflexivity.
Qed.

Lemma item_of_too_long (prefix api_id t : string) :
  item_of prefix "" (prefix ++ api_id ++ String "/" t) = None.
Proof.
  unfold item_of. rewrite strip_prefix_append.
  pose proof (segment_fst_no_slash (api_id ++ String "/" t)) as Hns.
  destruct (segment (api_id ++ String "/" t)) as [seg tail] eqn:Hseg.
  destruct (String.eqb_spec tail ""); [|now rewrite andb_false_r].
  subst tail. exfalso.
  assert (Hall : forall s, segment s = (seg, "") -> s = seg).
  { clear. intros s. revert seg.
    induction s as [|c s IH]; intros seg H; simpl in H.
    - now inversion H.
    - destruct (Ascii.eqb c "/"); [discriminate H|].
      destruct (segment s) as [seg' rest]. inversion H; subst.
      f_equal. now apply IH. }
  apply Hall in Hseg. simpl in Hns. rewrite <- Hseg in Hns.
  clear -Hns. induction api_id as [|c s IH]; simpl in Hns.
  - discriminate Hns.
  - apply andb_true_iff in Hns as [_ Hs]. auto.
Qed.

Lemma first_full_skip (r : entry) (rs : list entry) (m : method)
    (path : string) (body : json) :
  endpoint_for r path body = None ->
  first_full (r :: rs) m path body = first_full rs m path body.
Proof.
  intros H. simpl. now rewrite H.
Qed.

Lemma first_full_other_method (r : entry) (rs : list entry) (m : method)
    (path : string) (body : json) :
  method_eqb (route_method r) m = false ->
  first_full (r :: rs) m path body = first_full rs m path body.
Proof.
  intros H. simpl. rewrite H. now destruct (endpoint_for r path body).
Qed.

Lemma first_full_item (m : method) (prefix suffix : string)
    (endpoint : string -> json -> World -> reply * World) (rs : list entry)
    (path : string) (body : json) (api_id : string) :
  item_of prefix suffix path = Some api_id ->
  first_full (at_item m prefix suffix endpoint :: rs) m path body
  = Some (endpoint api_id body).
Proof.
  intros H. simpl. rewrite H. now destruct m.
Qed.

Lemma endpoint_for_no_item (m : method) (prefix suffix path : string)
    (endpoint : string -> json -> World -> reply * World) (body : json) :
  item_of prefix suffix path = None ->
  endpoint_for (at_item m prefix suffix endpoint) path body = None.
Proof.
  intros H. simpl. now rewrite H.
Qed.

(** Walk down the routing table to the first entry that answers. *)
Ltac walk_table :=
  repeat first
    [ rewrite first_full_other_method by reflexivity
    | rewrite first_full_skip by
        first [ reflexivity
              | apply endpoint_for_no_item; apply item_of_too_long ] ].

Section RoutingProperties.

Variable strftime_local : float -> string.
Variable start_time : float.
Variable validate_email : string -> option string.

Lemma app_item (api_id : string) (body : json) :
  path_param api_id = true ->
  app strftime_local start_time validate_email GET ("/api/v1/apis/" ++ api_id) body =
    send OfApi (GET_api strftime_local api_id) /\
  app strftime_local start_time validate_email PUT ("/api/v1/apis/" ++ api_id) body =
    send OfApi (PUT_api strftime_local api_id body) /\
  app strftime_local start_time validate_email DELETE ("/api/v1/apis/" ++ api_id) body =
    send OfAccepted (DELETE_api api_id).
Proof.
  intros H.
  pose proof (item_of_whole "/api/v1/apis/" api_id H) as Hitem.
  unfold app, router, routes.
  repeat split; walk_table;
    rewrite (first_full_item _ _ _ _ _ _ _ _ Hitem); reflexivity.
Qed.

Lemma app_health_checks (api_id : string) (body : json) :
  path_param api_id = true ->
  app strftime_local start_time validate_email GET
    ("/api/v1/apis/" ++ api_id ++ "/health-checks") body =
    send OfChecks (GET_health_checks api_id).
Proof.
  intros H.
  pose proof (item_of_followed "/api/v1/apis/" api_id "health-checks" H) as Hitem.
  unfold app, router, routes.
  walk_table.
  rewrite (first_full_item _ _ _ _ _ _ _ _ Hitem). reflexivity.
Qed.

(** C4, amended. An empty identifier never reaches [get_api],
    [update_api] or [delete_api].  GET, PUT and DELETE on /api/v1/apis/
    are each answered with a 307 redirect to /api/v1/apis, whatever the
    body, without a descriptor and without observing the world; a template
    only delivers an identifier that is non-empty and free of slashes; and
    for such an identifier GET and DELETE answer 200 and PUT answers 200
    or 422.  The guard of the three handlers, which raises 404 "API not
    found" for an empty identifier, is met only when a handler is called
    directly. *)
Theorem empty_identifier_never_delivered (body : json)
    (request : ApiRegistrationRequest.t) (w : World) :
  app strftime_local start_time validate_email GET "/api/v1/apis/" body w
    = (Redirect 307 "/api/v1/apis", w) /\
  app strftime_local start_time validate_email PUT "/api/v1/apis/" body w
    = (Redirect 307 "/api/v1/apis", w) /\
  app strftime_local start_time validate_email DELETE "/api/v1/apis/" body w
    = (Redirect 307 "/api/v1/apis", w) /\
  (forall prefix suffix path api_id : string,
      item_of prefix suffix path = Some api_id ->
      api_id <> "" /\ no_slash api_id = true) /\
  (forall api_id : string,
      path_param api_id = true ->
      reply_status
        (fst (app strftime_local start_time validate_email GET
                ("/api/v1/apis/" ++ api_id) body w)) = 200 /\
      reply_status
        (fst (app strftime_local start_time validate_email DELETE
                ("/api/v1/apis/" ++ api_id) body w)) = 200 /\
      (reply_status
         (fst (app strftime_local start_time validate_email PUT
                 ("/api/v1/apis/" ++ api_id) body w)) = 200 \/
       reply_status
         (fst (app strftime_local start_time validate_email PUT
                 ("/api/v1/apis/" ++ api_id) body w)) = 422)) /\
  get_api strftime_local "" w = (Raised (HTTPException 404 "API not found"), w) /\
  update_api strftime_local "" request w
    = (Raised (HTTPException 404 "API not found"), w) /\
  delete_api "" w = (Raised (HTTPException 404 "API not found"), w).
Proof.
  split; [reflexivity|]. split; [reflexivity|]. split; [reflexivity|].
  split.
  { intros prefix suffix path api_id H.
    destruct (path_param_inv _ (item_of_delivers _ _ _ _ H)) as (Hne & _ & Hns).
    split; assumption. }
  split; [|repeat split].
  intros api_id H.
  destruct (app_item api_id body H) as (-> & -> & ->).
  destruct (path_param_inv _ H) as (_ & Hne & _).
  unfold send, GET_api, DELETE_api, PUT_api, route_with_body, route,
    get_api, delete_api, update_api.
  rewrite Hne.
  split; [reflexivity|]. split; [reflexivity|].
  destruct (validate_ApiRegistrationRequest body) as [errs|r];
    [right | left]; reflexivity.
Qed.

(** C9, amended. For every identifier the template delivers (non-empty,
    free of slashes), under a clock that reads finite values, GET
    /api/v1/apis/{id}/health-checks answers 200 with five records, each
    carrying that identifier in [api_id]; the handler has no not-found
    guard of its own.  With the empty identifier the path matches no
    route: the router answers 404 "Not Found" and the handler is not
    called. *)
Theorem health_checks_echo_delivered_identifier (api_id : string) (body : json)
    (w : World) :
  path_param api_id = true ->
  clock_finite w ->
  (exists (records : list HealthCheck.t) (w' : World),
      app strftime_local start_time validate_email GET
        ("/api/v1/apis/" ++ api_id ++ "/health-checks") body w =
        (Answer (Json 200 (OfChecks {| Listing.data := records;
                                       Listing.total := 5 |})), w') /\
      List.length records = 5%nat /\
      Forall (fun r => HealthCheck.api_id r = api_id) records) /\
  app strftime_local start_time validate_email GET
    "/api/v1/apis//health-checks" body w =
    (Answer (Error 404 (Message "Not Found")), w).
Proof.
  intros Hid Hfin.
  split; [|reflexivity].
  rewrite (app_health_checks api_id body Hid).
  unfold send. rewrite (get_api_health_checks_run api_id w Hfin).
  do 2 eexists. split; [reflexivity|].
  split; [reflexivity|].
  repeat constructor.
Qed.

(** X6. The registration body is validated before the handler runs.  POST
    /api/v1/apis answers 200 exactly for a well-formed body (an object with
    the five required strings, an absent, null or string documentation_url
    and an absent or all-string tags array) and 422 otherwise; so does PUT
    /api/v1/apis/{id} for every identifier the template delivers.  A
    rejected body leaves the world unobserved; an accepted POST draws
    entropy and reads the clock once, an accepted PUT reads the clock
    twice. *)
Theorem registration_body_validated_first (api_id : string) (body : json)
    (w : World) :
  path_param api_id = true ->
  reply_status
    (fst (app strftime_local start_time validate_email POST
            "/api/v1/apis" body w)) =
    (if well_formed_registration body then 200 else 422) /\
  reply_status
    (fst (app strftime_local start_time validate_email PUT
            ("/api/v1/apis/" ++ api_id) body w)) =
    (if well_formed_registration body then 200 else 422) /\
  snd (app strftime_local start_time validate_email POST "/api/v1/apis" body w) =
    (if well_formed_registration body then tick (draw_entropy w) else w) /\
  snd (app strftime_local start_time validate_email PUT
         ("/api/v1/apis/" ++ api_id) body w) =
    (if well_formed_registration body then tick (tick w) else w).
Proof.
  intros Hid.
  destruct (app_item api_id body Hid) as (_ & -> & _).
  destruct (path_param_inv _ Hid) as (_ & Hne & _).
  change (app strftime_local start_time validate_email POST "/api/v1/apis" body)
    with (send OfApi (POST_apis strftime_local body)).
  pose proof (validate_ApiRegistrationRequest_decides body) as Hdec.
  unfold send, POST_apis, PUT_api, route_with_body, route, update_api.
  rewrite Hne.
  destruct (well_formed_registration body); destruct Hdec as (x & ->);
    repeat split.
Qed.

End RoutingProperties.

(** The claim as written fails on the application: with the empty
    identifier the three requests are redirected, not answered 404. *)
Lemma empty_identifier_is_redirected :
  fst (app Fixtures.strftime_utc Fixtures.started Fixtures.simple_email
         GET "/api/v1/apis/" JNull Fixtures.steady)
    = Redirect 307 "/api/v1/apis" /\
  fst (app Fixtures.strftime_utc Fixtures.started Fixtures.simple_email
         PUT "/api/v1/apis/" Fixtures.registration Fixtures.steady)
    = Redirect 307 "/api/v1/apis" /\
  fst (app Fixtures.strftime_utc Fixtures.started Fixtures.simple_email
         DELETE "/api/v1/apis/" JNull Fixtures.steady)
    = Redirect 307 "/api/v1/apis" /\
  reply_status
    (fst (app Fixtures.strftime_utc Fixtures.started Fixtures.simple_email
            GET "/api/v1/apis/" JNull Fixtures.steady)) <> 404.
Proof.
  repeat split. discriminate.
Qed.

(** The claim as written fails on the application: with the empty
    identifier the health-checks request is answered 404 by the router. *)
Lemma empty_identifier_health_checks_not_found :
  fst (app Fixtures.strftime_utc Fixtures.started Fixtures.simple_email
         GET "/api/v1/apis//health-checks" JNull Fixtures.steady)
    = Answer (Error 404 (Message "Not Found")) /\
  is_success
    (Error 404 (Message "Not Found") : response content) = false.
Proof.
  split; reflexivity.
Qed.

Lemma health_checks_echo_delivered_identifier_witness :
  exists (records : list HealthCheck.t) (w' : World),
    app Fixtures.strftime_utc Fixtures.started Fixtures.simple_email GET
      "/api/v1/apis/billing-1/health-checks" JNull Fixtures.ticking =
      (Answer (Json 200 (OfChecks {| Listing.data := records;
                                     Listing.total := 5 |})), w') /\
    List.length records = 5%nat /\
    Forall (fun r => HealthCheck.api_id r = "billing-1") records.
Proof.
  exact (proj1 (health_checks_echo_delivered_identifier Fixtures.strftime_utc
                  Fixtures.started Fixtures.simple_email "billing-1" JNull
                  Fixtures.ticking eq_refl ticking_clock_finite)).
Defined.

Lemma registration_body_validated_first_witness :
  reply_status
    (fst (app Fixtures.strftime_utc Fixtures.started Fixtures.simple_email
            POST "/api/v1/apis" Fixtures.bad_registration Fixtures.steady))
    = 422 /\
  reply_status
    (fst (app Fixtures.strftime_utc Fixtures.started Fixtures.simple_email
            PUT "/api/v1/apis/billing-1" Fixtures.bad_registration
            Fixtures.steady)) = 422 /\
  reply_status
    (fst (app Fixtures.strftime_utc Fixtures.started Fixtures.simple_email
            PUT "/api/v1/apis/billing-1" Fixtures.registration
            Fixtures.steady)) = 200.
Proof.
  destruct (registration_body_validated_first Fixtures.strftime_utc
              Fixtures.started Fixtures.simple_email "billing-1"
              Fixtures.bad_registration Fixtures.steady eq_refl)
    as (Hpost & Hput & _).
  destruct (registration_body_validated_first Fixtures.strftime_utc
              Fixtures.started Fixtures.simple_email "billing-1"
              Fixtures.registration Fixtures.steady eq_refl)
    as (_ & Hput' & _).
  split; [exact Hpost|]. split; [exact Hput | exact Hput'].
Defined.
